(** * targon-verifier-proxy: the expiring cache and the verification pipeline

    A shallow embedding of the Go sources

    - [api/internal/config] (the [VerificationCache]),
    - [api/internal/routes] (the [Verify] handler, in its two variants:
      the one that routes by path suffix and the one that routes by the
      [x-backend-server] header),

    followed by the properties of the specification that concern them.

    Conventions.  A [time.Time] is an integer number of nanoseconds on one
    clock and a [time.Duration] an integer number of nanoseconds, both in
    [Z] and away from the ends of Go's ranges; each [time.Now()] of the
    source is an explicit argument.  A [[]byte] is a [list byte], the nil
    slice being the empty list.  Go maps are stdpp's [gmap].  Logging has no
    effect on the results and is left out. *)

From Stdlib Require Import ZArith Lia Strings.Ascii Strings.String Strings.Byte.
From stdpp Require Import base option list strings gmap fin_maps.

Local Open Scope Z_scope.
Set Warnings "-register-all".

(* ===================================================================== *)
(** * The table [api_keys]                                               *)
(* ===================================================================== *)

(** The table of [schema.sql] and the SQL statements that the Go code
    sends, each as a function of the table.  What the database itself
    decides is a parameter: [same] is the comparison of a column of type
    VARCHAR with a value (the collation), [admits] says which strings a
    column of type VARCHAR(255) takes.  The rows are kept in the order in
    which they were inserted; a query that scans one row takes the first
    that matches.  The column [is_admin] is never left NULL by any
    statement of the repository and is a [bool]. *)

Module sql.

Record Row := mkRow {
  hotkey : string;
  key_value : string;
  created_at : Z;
  last_used_at : option Z;
  is_admin : bool
}.

Record Engine := mkEngine {
  same : string -> string -> bool;
  admits : string -> bool
}.

(** [answers] is false when the database cannot be reached: every
    statement then returns an error. *)
Record Database := mkDatabase {
  api_keys : list Row;
  answers : bool
}.

(** What [QueryRow(...).Scan(&x)] gives: the column of the first matching
    row, [sql.ErrNoRows], or another error. *)
Inductive Scanned (A : Type) :=
| Found (a : A)
| ErrNoRows
| ScanFails.

Arguments Found {A} a.
Arguments ErrNoRows {A}.
Arguments ScanFails {A}.

Section Statements.

Variable E : Engine.

(** [SELECT <column> FROM api_keys WHERE key_value = ?]. *)
Definition select_where_key_value {A : Type} (column : Row -> A)
    (db : Database) (key : string) : Scanned A :=
  if answers db then
    match find (fun r => same E (key_value r) key) (api_keys db) with
    | Some r => Found (column r)
    | None => ErrNoRows
    end
  else ScanFails.

(** [SELECT <column> FROM api_keys WHERE hotkey = ?]. *)
Definition select_where_hotkey {A : Type} (column : Row -> A)
    (db : Database) (hk : string) : Scanned A :=
  if answers db then
    match find (fun r => same E (hotkey r) hk) (api_keys db) with
    | Some r => Found (column r)
    | None => ErrNoRows
    end
  else ScanFails.

(** [SELECT COUNT( * ) FROM api_keys WHERE hotkey = ?]. *)
Definition count_where_hotkey (db : Database) (hk : string) : option nat :=
  if answers db
  then Some (length (filter (fun r => same E (hotkey r) hk = true) (api_keys db)))
  else None.

(** [INSERT INTO api_keys ...]: refused when the database does not answer,
    when a column does not take its value, when a row has the same hotkey
    (PRIMARY KEY) or when a row has the same key value (UNIQUE). *)
Definition insert (db : Database) (row : Row) : option Database :=
  if answers db
     && admits E (hotkey row) && admits E (key_value row)
     && negb (existsb (fun r => same E (hotkey r) (hotkey row)
                                || same E (key_value r) (key_value row))
                (api_keys db))
  then Some (mkDatabase (api_keys db ++ [row]) true)
  else None.

(** [DELETE FROM api_keys WHERE hotkey = ?], with the number of rows
    affected. *)
Definition delete_where_hotkey (db : Database) (hk : string)
    : option (Database * nat) :=
  if answers db
  then Some (mkDatabase
               (filter (fun r => same E (hotkey r) hk = false) (api_keys db))
               true,
             length (filter (fun r => same E (hotkey r) hk = true)
                       (api_keys db)))
  else None.

(** [UPDATE api_keys SET key_value = ? WHERE hotkey = ?]: when a row is to
    be changed, refused if the column does not take the value or if a row
    with another hotkey has the same key value (UNIQUE). *)
Definition update_key_value (db : Database) (kv hk : string)
    : option Database :=
  if answers db
     && negb (existsb (fun r => same E (hotkey r) hk) (api_keys db)
              && (negb (admits E kv)
                  || existsb (fun r => negb (same E (hotkey r) hk)
                                       && same E (key_value r) kv)
                       (api_keys db)))
  then Some (mkDatabase
               (map (fun r => if same E (hotkey r) hk
                              then mkRow (hotkey r) kv (created_at r)
                                     (last_used_at r) (is_admin r)
                              else r)
                  (api_keys db))
               true)
  else None.

End Statements.

End sql.

(* ===================================================================== *)
(** * Package [config]: the expiring cache                               *)
(* ===================================================================== *)

Module config.

(** [time.Time.After]: [t.After(u)] reports whether [t] is after [u]. *)
Definition After (t u : Z) : bool := u <? t.

(** [time.Time.Add]. *)
Definition Add (t d : Z) : Z := t + d.

Record CacheEntry := mkCacheEntry {
  Response : list byte;
  ExpiresAt : Z
}.

(** The [cache] field of [VerificationCache]; the [mutex] field is the
    subject of [Module locked] below. *)
Abbreviation VerificationCache := (gmap string CacheEntry).

Definition NewVerificationCache : gmap string CacheEntry := ∅.

(** [func (c *VerificationCache) Set(requestID, response, ttl)];
    [now] is the reading of [time.Now()]. *)
Definition Set_ (c : gmap string CacheEntry) (now : Z)
    (requestID : string) (response : list byte) (ttl : Z)
    : gmap string CacheEntry :=
  <[requestID := {| Response := response; ExpiresAt := Add now ttl |}]> c.

(** What a call of [Get] yields: the two returned values, and the key whose
    deletion the call handed to a new goroutine, if it did. *)
Record GetResult := mkGetResult {
  value : list byte;
  found : bool;
  deferred : option string
}.

(** [func (c *VerificationCache) Get(requestID) ([]byte, bool)]. *)
Definition Get (c : gmap string CacheEntry) (now : Z) (requestID : string)
    : GetResult :=
  match c !! requestID with
  | None => mkGetResult [] false None
  | Some entry =>
      if After now (ExpiresAt entry)
      then mkGetResult [] false (Some requestID)
      else mkGetResult (Response entry) true None
  end.

(** The body of the loop of [Cleanup], for one [key, entry] of the range. *)
Definition sweep (now : Z) (key : string) (entry : CacheEntry)
    (c : gmap string CacheEntry) : gmap string CacheEntry :=
  if After now (ExpiresAt entry) then delete key c else c.

(** [func (c *VerificationCache) Cleanup()]: the range visits every entry
    that the map held when the loop began and that has not been deleted
    since; the loop deletes only the entry it is visiting. *)
Definition Cleanup (c : gmap string CacheEntry) (now : Z)
    : gmap string CacheEntry :=
  map_fold (sweep now) c c.

(** [func (c *VerificationCache) StartCleanupRoutine(interval)]: the
    goroutine calls [Cleanup] once at every tick of the ticker.  [ticks]
    are the readings of the clock in the sweeps made so far, in order; the
    result is what they leave of [c] when nothing else writes in between. *)
Definition StartCleanupRoutine (c : gmap string CacheEntry) (ticks : list Z)
    : gmap string CacheEntry :=
  foldl Cleanup c ticks.

(** The three errors of [ensureAdminKey], each wrapping the error of the
    statement that failed. *)
Inductive AdminKeyError :=
| FailedToCheck
| FailedToCreate
| FailedToUpdate.

(** [func ensureAdminKey(cfg *Config) error], on the table: [adminHotkey]
    and [adminKeyValue] are [cfg.Env.AdminHotkey] and
    [cfg.Env.AdminKeyValue], [now] the reading of [time.Now()] given to the
    INSERT.  The result is the error, if any, and the table afterwards. *)
Definition ensureAdminKey (E : sql.Engine) (db : sql.Database)
    (adminHotkey adminKeyValue : string) (now : Z)
    : option AdminKeyError * sql.Database :=
  match sql.count_where_hotkey E db adminHotkey with
  | None => (Some FailedToCheck, db)
  | Some O =>
      match sql.insert E db (sql.mkRow adminHotkey adminKeyValue now None true) with
      | None => (Some FailedToCreate, db)
      | Some db' => (None, db')
      end
  | Some (S _) =>
      match sql.update_key_value E db adminKeyValue adminHotkey with
      | None => (Some FailedToUpdate, db)
      | Some db' => (None, db')
      end
  end.

End config.

(* ===================================================================== *)
(** * The cache under its lock                                           *)
(* ===================================================================== *)

(** Every method of the cache runs its whole body, the reading of the clock
    included, while holding [mutex]: [Set] and [Cleanup] the write lock,
    [Get] the read lock, under which it only reads.  The body of the
    goroutine that [Get] starts for an expired entry takes the write lock on
    its own, later.  An execution is therefore a sequence of critical
    sections, each atomic.  [pending] holds the deletions that have been
    started and have not yet run. *)

Module locked.
Import config.

Record State := mkState {
  store : gmap string CacheEntry;
  pending : list string
}.

Inductive Op :=
| OpSet (requestID : string) (response : list byte) (ttl : Z)
| OpGet (requestID : string)
| OpCleanup
| OpDeferredDelete (requestID : string).

Definition init : State := mkState NewVerificationCache [].

(** Removes the first occurrence of [k], if there is one. *)
Fixpoint remove_first (k : string) (l : list string) : option (list string) :=
  match l with
  | [] => None
  | x :: l' =>
      if String.eqb x k then Some l'
      else option_map (cons x) (remove_first k l')
  end.

(** One critical section, entered at time [now].  The result is the new
    state and, for a [Get], what it returned.  A deferred deletion can run
    only if it has been started. *)
Definition step (s : State) (now : Z) (op : Op)
    : option (State * option (list byte * bool)) :=
  match op with
  | OpSet k v ttl =>
      Some (mkState (Set_ (store s) now k v ttl) (pending s), None)
  | OpGet k =>
      let r := Get (store s) now k in
      Some (mkState (store s)
              (match deferred r with
               | Some k' => pending s ++ [k']
               | None => pending s
               end),
            Some (value r, found r))
  | OpCleanup =>
      Some (mkState (Cleanup (store s) now) (pending s), None)
  | OpDeferredDelete k =>
      match remove_first k (pending s) with
      | Some p => Some (mkState (delete k (store s)) p, None)
      | None => None
      end
  end.

(** A schedule is a list of critical sections with the times at which they
    read the clock; [run] gives the final state and the list of what the
    [Get]s returned, in order. *)
Fixpoint run (s : State) (sched : list (Z * Op))
    : option (State * list (list byte * bool)) :=
  match sched with
  | [] => Some (s, [])
  | (now, op) :: rest =>
      match step s now op with
      | None => None
      | Some (s', out) =>
          match run s' rest with
          | None => None
          | Some (s'', outs) =>
              Some (s'', match out with Some o => o :: outs | None => outs end)
          end
      end
  end.

(** The clock never goes back along a schedule. *)
Fixpoint monotone (from : Z) (sched : list (Z * Op)) : bool :=
  match sched with
  | [] => true
  | (now, _) :: rest => (from <=? now) && monotone now rest
  end.

(** Whether [op] is a [Set] of [k] or the deferred deletion of [k]. *)
Definition writes_to (k : string) (op : Op) : bool :=
  match op with
  | OpSet k' _ _ => String.eqb k' k
  | OpDeferredDelete k' => String.eqb k' k
  | OpGet _ | OpCleanup => false
  end.

(** A schedule that loses a write.  An entry of [req-1] expires at 1; a
    [Get] at 5 finds it expired and starts its deletion; a [Set] at 6 then
    stores a new value that is good until 106; the deletion that was
    started runs at 7; a [Get] at 8 follows. *)
Definition lost_write : list (Z * Op) :=
  [ (0, OpSet "req-1" [x41] 1);
    (5, OpGet "req-1");
    (6, OpSet "req-1" [x42] 100);
    (7, OpDeferredDelete "req-1");
    (8, OpGet "req-1") ].

End locked.

(* ===================================================================== *)
(** * Package [shared]: the types of the verification endpoint           *)
(* ===================================================================== *)

Module shared.

(** [type ApiKey struct]; [LastUsed] is [None] for the zero time. *)
Record ApiKey := mkApiKey {
  Hotkey : string;
  KeyValue : string;
  CreatedAt : Z;
  LastUsed : option Z;
  IsAdmin : bool
}.

Section Types.

(** Go's [float64], the type [encoding/json] gives to a number that it
    decodes into an [interface{}]. *)
Variable float64 : Type.

(** A value of type [interface{}] as [encoding/json] decodes it; the nil
    interface is [JNull]. *)
Inductive JSON :=
| JNull
| JBool (b : bool)
| JNumber (x : float64)
| JString (s : string)
| JArray (l : list JSON)
| JObject (m : list (string * JSON)).

(** [RequestParams] and [RawChunks] are [None] when the Go field is nil. *)
Record VerificationRequest := mkVerificationRequest {
  Model : string;
  RequestType : string;
  RequestParams : option (gmap string JSON);
  RawChunks : option (list (gmap string JSON));
  RequestID : string
}.

(** [RespRequestID] is the field [RequestID] of the response. *)
Record VerificationResponse := mkVerificationResponse {
  RespRequestID : string;
  Verified : bool;
  Error : string;
  Cause : string;
  InputTokens : JSON;
  ResponseTokens : JSON;
  GPUs : Z
}.

End Types.

Arguments JNull {float64}.
Arguments JBool {float64} b.
Arguments JNumber {float64} x.
Arguments JString {float64} s.
Arguments JArray {float64} l.
Arguments JObject {float64} m.
Arguments mkVerificationRequest {float64}.
Arguments Model {float64}.
Arguments RequestType {float64}.
Arguments RequestParams {float64}.
Arguments RawChunks {float64}.
Arguments RequestID {float64}.
Arguments mkVerificationResponse {float64}.
Arguments RespRequestID {float64}.
Arguments Verified {float64}.
Arguments Error {float64}.
Arguments Cause {float64}.
Arguments InputTokens {float64}.
Arguments ResponseTokens {float64}.
Arguments GPUs {float64}.

End shared.

(* ===================================================================== *)
(** * Package [routes]: what the two variants of the handler share       *)
(* ===================================================================== *)

Module routes.
Import config shared.

(** ** Strings *)

(** [strings.Split(s, sep)] for a separator of one byte: the substrings
    between the separators, one more than there are separators. *)
Fixpoint Split (s : string) (sep : ascii) : list string :=
  match s with
  | EmptyString => [EmptyString]
  | String c rest =>
      if Ascii.eqb c sep then EmptyString :: Split rest sep
      else match Split rest sep with
           | [] => [String c EmptyString]
           | part :: parts => String c part :: parts
           end
  end.

Definition lower_byte (c : ascii) : ascii :=
  let n := nat_of_ascii c in
  if ((65 <=? n) && (n <=? 90))%nat then ascii_of_nat (n + 32) else c.

(** [strings.ToLower] on the bytes of the string: the letters [A] to [Z]
    are lowered, every other byte is kept.  Go also lowers the letters
    outside ASCII; none of them becomes one of the letters of [bearer], the
    only string the result is compared with, so the comparison is the same. *)
Fixpoint ToLower (s : string) : string :=
  match s with
  | EmptyString => EmptyString
  | String c rest => String (lower_byte c) (ToLower rest)
  end.

(** [parts[i]], for an index that is in range where the source indexes. *)
Definition index (parts : list string) (i : nat) : string :=
  default EmptyString (parts !! i).

(** ** The key store *)

(** The table [api_keys] as the handler sees it: the hotkey of each
    [key_value] (the column is UNIQUE), the [last_used_at] of each hotkey,
    and whether the database answers at all. *)
Record KeyStore := mkKeyStore {
  hotkey_of : gmap string string;
  last_used_at : gmap string Z;
  reachable : bool
}.

Inductive DbAccess :=
| Query (key_value : string)
| Update (hotkey : string) (at_time : Z).

(** [SELECT hotkey FROM api_keys WHERE key_value = ?], then [Scan]: [None]
    when [Scan] returns an error (no row, or no answer). *)
Definition QueryRow (db : KeyStore) (apiKey : string) : option string :=
  if reachable db then hotkey_of db !! apiKey else None.

(** [UPDATE api_keys SET last_used_at = ? WHERE hotkey = ?]; its error is
    logged and dropped. *)
Definition Exec (db : KeyStore) (now : Z) (hotkey : string) : KeyStore :=
  if reachable db
  then mkKeyStore (hotkey_of db) (<[hotkey := now]> (last_used_at db)) true
  else db.

Record AuthResult := mkAuthResult {
  valid : bool;
  err : string;
  keys_after : KeyStore;
  accesses : list DbAccess
}.

(** [func validateAPIKey(cc) (bool, error)], the same text in both
    variants; [authHeader] is [Header.Get("Authorization")], empty when the
    header is absent. *)
Definition validateAPIKey (db : KeyStore) (now : Z) (authHeader : string)
    : AuthResult :=
  if String.eqb authHeader "" then
    mkAuthResult false "authorization required" db []
  else
    let parts := Split authHeader " " in
    if negb (Nat.eqb (length parts) 2)
       || negb (String.eqb (ToLower (index parts 0)) "bearer") then
      mkAuthResult false "invalid authorization format" db []
    else
      let apiKey := index parts 1 in
      match QueryRow db apiKey with
      | None => mkAuthResult false "invalid API key" db [Query apiKey]
      | Some hotkey =>
          mkAuthResult true "" (Exec db now hotkey)
            [Query apiKey; Update hotkey now]
      end.

Section Handler.

Variable float64 : Type.

(** [func validateRequiredFields(cc, request) (string, bool)], the same
    text in both variants. *)
Definition validateRequiredFields (request : VerificationRequest float64)
    : string * bool :=
  if String.eqb (Model request) "" then ("model", true)
  else if String.eqb (RequestType request) "" then ("request_type", true)
  else match RequestParams request with
       | None => ("request_params", true)
       | Some _ =>
           match RawChunks request with
           | None => ("raw_chunks", true)
           | Some _ => ("", false)
           end
       end.

(** ** What the handler calls outside the repository *)

(** A call of [client.Do]: the URL, the [x-backend-server] header if it was
    set, and the body.  The method is POST and the content type JSON in
    every call. *)
Record BackendCall := mkBackendCall {
  url : string;
  x_backend_server : option string;
  body : list byte
}.

(** [client.Do] followed by [io.ReadAll]: the first fails, or the second
    fails, or the body has been read.  The status line of the reply is
    never looked at. *)
Inductive Reply :=
| DoFails (e : string)
| ReadFails (e : string)
| Replies (b : list byte).

(** [encoding/json] and [net/http].  An [inl] is the text of the error.
    Decoding into a [map[string]interface{}] gives the nil map, [None], for
    the JSON text [null]. *)
Record Externals := mkExternals {
  json_Marshal_request : VerificationRequest float64 -> string + list byte;
  json_Marshal_response : VerificationResponse float64 -> string + list byte;
  json_Unmarshal_response : list byte -> string + VerificationResponse float64;
  json_Unmarshal_map : list byte -> string + option (gmap string (JSON float64));
  http_NewRequest : string -> option string;
  client_Do : BackendCall -> Reply;
  int_of_float64 : float64 -> Z
}.

(** ** The handler's surroundings and its result *)

(** [cc.Cfg]: the cache, the SQL client and [Env.HaproxyURL]. *)
Record Config := mkConfig {
  Cache : gmap string CacheEntry;
  SqlClient : KeyStore;
  HaproxyURL : string
}.

(** The inbound request: its [Authorization] header and what [c.Bind]
    makes of it, [None] when [Bind] returns an error. *)
Record Inbound := mkInbound {
  Authorization : string;
  Bind : option (VerificationRequest float64)
}.

(** The readings of [time.Now()] in [validateAPIKey], in [Cache.Get] and in
    [Cache.Set]. *)
Record Clock := mkClock {
  at_auth : Z;
  at_get : Z;
  at_set : Z
}.

(** What is written to the caller: [Envelope e] is the map
    [{"verified": false, "error": e}], [Typed r] a [VerificationResponse]
    given to [c.JSON], [Blob b] the bytes given to [c.JSONBlob]. *)
Inductive Payload :=
| Envelope (e : string)
| Typed (r : VerificationResponse float64)
| Blob (b : list byte).

(** A handler that panics is caught by the recover middleware of
    [server.go]. *)
Inductive Outcome :=
| Responded (status : Z) (p : Payload)
| Panicked.

Definition StatusOK : Z := 200.
Definition StatusBadRequest : Z := 400.
Definition StatusUnauthorized : Z := 401.
Definition StatusInternalServerError : Z := 500.

Record Handled := mkHandled {
  outcome : Outcome;
  cache_after : gmap string CacheEntry;
  store_after : KeyStore;
  store_log : list DbAccess;
  backend_calls : list BackendCall;
  started : option string
}.

(** [72*time.Minute], in nanoseconds. *)
Definition cacheTTL : Z := 72 * (60 * 1000000000).

(** The cache lookup of [Verify], the same text in both variants: the
    response to send at once if there is one, and the deletion that [Get]
    started, if it did. *)
Definition cached (X : Externals) (c : gmap string CacheEntry) (now : Z)
    (request : VerificationRequest float64)
    : option (VerificationResponse float64) * option string :=
  if String.eqb (RequestID request) "" then (None, None)
  else
    let r := Get c now (RequestID request) in
    if found r then
      match json_Unmarshal_response X (value r) with
      | inl _ => (None, deferred r)
      | inr response => (Some response, deferred r)
      end
    else (None, deferred r).

(** What [forwardToValis] returns: a response, an error, or a panic. *)
Inductive Forwarded (A : Type) :=
| FwdOk (a : A)
| FwdErr (e : string)
| FwdPanic.

End Handler.

Arguments validateRequiredFields {float64} request.
Arguments mkExternals {float64}.
Arguments json_Marshal_request {float64} e.
Arguments json_Marshal_response {float64} e.
Arguments json_Unmarshal_response {float64} e.
Arguments json_Unmarshal_map {float64} e.
Arguments http_NewRequest {float64} e.
Arguments client_Do {float64} e.
Arguments int_of_float64 {float64} e.
Arguments mkInbound {float64}.
Arguments Authorization {float64} i.
Arguments Bind {float64} i.
Arguments Envelope {float64} e.
Arguments Typed {float64} r.
Arguments Blob {float64} b.
Arguments Responded {float64} status p.
Arguments Panicked {float64}.
Arguments mkHandled {float64}.
Arguments outcome {float64} h.
Arguments cache_after {float64} h.
Arguments store_after {float64} h.
Arguments store_log {float64} h.
Arguments backend_calls {float64} h.
Arguments started {float64} h.
Arguments cached {float64} X c now request.
Arguments FwdOk {A} a.
Arguments FwdErr {A} e.
Arguments FwdPanic {A}.

End routes.

(* ===================================================================== *)
(** * Package [routes], first variant: the backend is a path suffix      *)
(* ===================================================================== *)

Module by_path.
Import config shared routes.

Section Handler.

Variable float64 : Type.
Variable X : Externals float64.

Definition missing_verified : string :=
  "Verification service response missing 'verified' field".

(** Lines 338 to 365 of [forwardToValis]: from the decoded map to the
    response.  A type assertion that fails leaves the zero value. *)
Definition typed_response (req : VerificationRequest float64)
    (responseMap : gmap string (JSON float64)) : VerificationResponse float64 :=
  let responseMap :=
    match responseMap !! "verified" with
    | Some _ => responseMap
    | None =>
        <["error" := JString missing_verified]>
          (<["verified" := JBool false]> responseMap)
    end in
  {| RespRequestID := RequestID req;
     Verified := match responseMap !! "verified" with
                 | Some (JBool verified) => verified
                 | _ => false
                 end;
     Error := match responseMap !! "error" with
              | Some (JString errorMsg) => errorMsg
              | _ => ""
              end;
     Cause := match responseMap !! "cause" with
              | Some (JString cause) => cause
              | _ => ""
              end;
     InputTokens := default JNull (responseMap !! "input_tokens");
     ResponseTokens := default JNull (responseMap !! "response_tokens");
     GPUs := match responseMap !! "gpus" with
             | Some (JNumber gpus) => int_of_float64 X gpus
             | _ => 0
             end |}.

(** The choice of [backendPath] in [forwardToValis]: the comparison is
    Go's [==] on strings, and the last branch is the error. *)
Definition backendPath (model : string) : option string :=
  if String.eqb model "deepseek-ai/DeepSeek-R1" then Some "/r1/verify"
  else if String.eqb model "deepseek-ai/DeepSeek-V3" then Some "/v3/verify"
  else None.

(** [func forwardToValis(cc, req)], which returns a pointer to a
    [VerificationResponse] and an error, with the calls of [client.Do]
    that it made. *)
Definition forwardToValis (haproxyURL : string)
    (req : VerificationRequest float64)
    : Forwarded (VerificationResponse float64) * list BackendCall :=
  match json_Marshal_request X req with
  | inl e => (FwdErr ("failed to prepare request: " +:+ e), [])
  | inr requestBody =>
      match backendPath (Model req) with
      | None => (FwdErr ("unsupported model: " +:+ Model req), [])
      | Some path =>
          let backendURL := haproxyURL +:+ path in
          match http_NewRequest X backendURL with
          | Some e => (FwdErr ("failed to create request: " +:+ e), [])
          | None =>
              let call := mkBackendCall backendURL None requestBody in
              match client_Do X call with
              | DoFails e =>
                  (FwdErr ("failed to send request to backend: " +:+ e), [call])
              | ReadFails e =>
                  (FwdErr ("failed to read response body: " +:+ e), [call])
              | Replies body =>
                  match json_Unmarshal_map X body with
                  | inl e => (FwdErr ("failed to parse response: " +:+ e), [call])
                  | inr None =>
                      (* the assignment to an entry of the nil map panics *)
                      (FwdPanic, [call])
                  | inr (Some responseMap) =>
                      (FwdOk (typed_response req responseMap), [call])
                  end
              end
          end
      end
  end.

(** [func Verify(c echo.Context) error]. *)
Definition Verify (cfg : Config) (clk : Clock) (rq : Inbound float64)
    : Handled float64 :=
  let untouched o db log :=
    mkHandled o (Cache cfg) db log [] None in
  match Bind rq with
  | None =>
      untouched (Responded StatusBadRequest (Envelope "Invalid request format"))
        (SqlClient cfg) []
  | Some request =>
      match validateRequiredFields request with
      | (missingField, true) =>
          untouched
            (Responded StatusBadRequest
               (Envelope ("Missing required field: " +:+ missingField)))
            (SqlClient cfg) []
      | (_, false) =>
          let auth :=
            validateAPIKey (SqlClient cfg) (at_auth clk) (Authorization rq) in
          if negb (valid auth) then
            untouched (Responded StatusUnauthorized (Envelope (err auth)))
              (keys_after auth) (accesses auth)
          else
            match cached X (Cache cfg) (at_get clk) request with
            | (Some response, job) =>
                mkHandled (Responded StatusOK (Typed response)) (Cache cfg)
                  (keys_after auth) (accesses auth) [] job
            | (None, job) =>
                let '(forwarded, calls) :=
                  forwardToValis (HaproxyURL cfg) request in
                let finish o c :=
                  mkHandled o c (keys_after auth) (accesses auth) calls job in
                match forwarded with
                | FwdErr e =>
                    finish
                      (Responded StatusInternalServerError
                         (Envelope ("Verification service error: " +:+ e)))
                      (Cache cfg)
                | FwdPanic => finish Panicked (Cache cfg)
                | FwdOk response =>
                    finish (Responded StatusOK (Typed response))
                      (if String.eqb (RequestID request) "" then Cache cfg
                       else
                         match json_Marshal_response X response with
                         | inl _ => Cache cfg
                         | inr responseBytes =>
                             Set_ (Cache cfg) (at_set clk) (RequestID request)
                               responseBytes cacheTTL
                         end)
                end
            end
      end
  end.

End Handler.

Arguments typed_response {float64} X req responseMap.
Arguments forwardToValis {float64} X haproxyURL req.
Arguments Verify {float64} X cfg clk rq.

End by_path.

(* ===================================================================== *)
(** * Package [routes], second variant: the backend is a header          *)
(* ===================================================================== *)

Module by_header.
Import config shared routes.

Section Handler.

Variable float64 : Type.
Variable X : Externals float64.

(** The [switch req.Model] of [forwardToValis]: the value given to the
    header [x-backend-server], the [default] case being the error. *)
Definition backendServer (model : string) : option string :=
  if String.eqb model "deepseek-ai/DeepSeek-R1" then Some "r1"
  else if String.eqb model "deepseek-ai/DeepSeek-V3" then Some "v3"
  else None.

(** [func forwardToValis(cc, req) ([]byte, error)], with the calls of
    [client.Do] that it made.  The body of the reply is returned as it was
    read. *)
Definition forwardToValis (haproxyURL : string)
    (req : VerificationRequest float64)
    : Forwarded (list byte) * list BackendCall :=
  match json_Marshal_request X req with
  | inl e => (FwdErr ("failed to prepare request: " +:+ e), [])
  | inr requestBody =>
      let backendURL := haproxyURL +:+ "/verify" in
      match http_NewRequest X backendURL with
      | Some e => (FwdErr ("failed to create request: " +:+ e), [])
      | None =>
          match backendServer (Model req) with
          | None => (FwdErr ("unsupported model: " +:+ Model req), [])
          | Some name =>
              let call := mkBackendCall backendURL (Some name) requestBody in
              match client_Do X call with
              | DoFails e =>
                  (FwdErr ("failed to send request to backend: " +:+ e), [call])
              | ReadFails e =>
                  (FwdErr ("failed to read response body: " +:+ e), [call])
              | Replies body => (FwdOk body, [call])
              end
          end
      end
  end.

(** [func Verify(c echo.Context) error].  The test [response != nil] of the
    source holds whenever [forwardToValis] returns no error: [io.ReadAll]
    returns a slice that is not nil. *)
Definition Verify (cfg : Config) (clk : Clock) (rq : Inbound float64)
    : Handled float64 :=
  let untouched o db log :=
    mkHandled o (Cache cfg) db log [] None in
  match Bind rq with
  | None =>
      untouched (Responded StatusBadRequest (Envelope "Invalid request format"))
        (SqlClient cfg) []
  | Some request =>
      match validateRequiredFields request with
      | (missingField, true) =>
          untouched
            (Responded StatusBadRequest
               (Envelope ("Missing required field: " +:+ missingField)))
            (SqlClient cfg) []
      | (_, false) =>
          let auth :=
            validateAPIKey (SqlClient cfg) (at_auth clk) (Authorization rq) in
          if negb (valid auth) then
            untouched (Responded StatusUnauthorized (Envelope (err auth)))
              (keys_after auth) (accesses auth)
          else
            match cached X (Cache cfg) (at_get clk) request with
            | (Some response, job) =>
                mkHandled (Responded StatusOK (Typed response)) (Cache cfg)
                  (keys_after auth) (accesses auth) [] job
            | (None, job) =>
                let '(forwarded, calls) :=
                  forwardToValis (HaproxyURL cfg) request in
                let finish o c :=
                  mkHandled o c (keys_after auth) (accesses auth) calls job in
                match forwarded with
                | FwdErr e =>
                    finish
                      (Responded StatusInternalServerError
                         (Envelope ("Verification service error: " +:+ e)))
                      (Cache cfg)
                | FwdPanic => finish Panicked (Cache cfg)
                | FwdOk response =>
                    finish (Responded StatusOK (Blob response))
                      (if String.eqb (RequestID request) "" then Cache cfg
                       else
                         Set_ (Cache cfg) (at_set clk) (RequestID request)
                           response cacheTTL)
                end
            end
      end
  end.

End Handler.

Arguments forwardToValis {float64} X haproxyURL req.
Arguments Verify {float64} X cfg clk rq.

End by_header.

(* ===================================================================== *)
(** * Package [routes]: the administration of the keys                   *)
(* ===================================================================== *)

Module admin.
Import shared routes.

(** The inbound request of an admin handler: its [Authorization] header
    and the [Hotkey] of the request that [c.Bind] makes of the body, [None]
    when [Bind] returns an error.  The three request types have that one
    field. *)
Record Inbound := mkInbound {
  Authorization : string;
  Bind : option string
}.

(** What an admin handler writes: [Failure s e] is the map
    [{"error": e}] with status [s], [Message s m] the map [{"message": m}],
    [Created k] the [ApiKey] with status 200, [Key h v] the map
    [{"hotkey": h, "key_value": v}] with status 200. *)
Inductive Answer :=
| Failure (status : Z) (error : string)
| Message (status : Z) (message : string)
| Created (key : ApiKey)
| Key (hotkey key_value : string).

Definition StatusOK : Z := 200.
Definition StatusBadRequest : Z := 400.
Definition StatusUnauthorized : Z := 401.
Definition StatusForbidden : Z := 403.
Definition StatusNotFound : Z := 404.
Definition StatusInternalServerError : Z := 500.

Section Handlers.

Variable E : sql.Engine.

(** [func checkAdminAuth(c echo.Context) (bool, int, string)]. *)
Definition checkAdminAuth (db : sql.Database) (authHeader : string)
    : bool * Z * string :=
  if String.eqb authHeader "" then
    (false, StatusUnauthorized, "Authorization required")
  else
    let parts := Split authHeader " " in
    if negb (Nat.eqb (length parts) 2)
       || negb (String.eqb (ToLower (index parts 0)) "bearer") then
      (false, StatusUnauthorized,
       "Invalid authorization format. Use 'Bearer YOUR_API_KEY'")
    else
      let apiKey := index parts 1 in
      match sql.select_where_key_value E sql.is_admin db apiKey with
      | sql.ErrNoRows => (false, StatusUnauthorized, "Invalid API key")
      | sql.ScanFails =>
          (false, StatusInternalServerError, "Internal server error")
      | sql.Found isAdmin =>
          if negb isAdmin then
            (false, StatusForbidden, "Administrator privileges required")
          else (true, 0, "")
      end.

(** [func AddKey(c echo.Context) error].  [generated] is what
    [nanoid.Generate] returns, [None] for its error; [dbNow] is the
    CURRENT_TIMESTAMP that the database gives to [created_at], [now] the
    reading of [time.Now()] in the answer. *)
Definition AddKey (db : sql.Database) (generated : option string)
    (dbNow now : Z) (rq : Inbound) : Answer * sql.Database :=
  match checkAdminAuth db (Authorization rq) with
  | (false, code, errMsg) => (Failure code errMsg, db)
  | (true, _, _) =>
      match Bind rq with
      | None => (Failure StatusBadRequest "Invalid request format", db)
      | Some reqHotkey =>
          if String.eqb reqHotkey "" then
            (Failure StatusBadRequest "hotkey is required", db)
          else
            match generated with
            | None =>
                (Failure StatusInternalServerError
                   "Failed to generate API key", db)
            | Some keyValue =>
                match sql.count_where_hotkey E db reqHotkey with
                | None =>
                    (Failure StatusInternalServerError
                       "Failed to check for existing hotkey", db)
                | Some (S _) =>
                    (Failure StatusBadRequest
                       "Hotkey already exists. Use a different hotkey or remove the existing one first.",
                     db)
                | Some O =>
                    match sql.insert E db
                            (sql.mkRow reqHotkey keyValue dbNow None false) with
                    | None =>
                        (Failure StatusInternalServerError
                           "Failed to store API key", db)
                    | Some db' =>
                        (Created (mkApiKey reqHotkey keyValue now None false),
                         db')
                    end
                end
            end
      end
  end.

(** [func RemoveKey(c echo.Context) error].  [RowsAffected] of the MySQL
    driver returns no error. *)
Definition RemoveKey (db : sql.Database) (rq : Inbound)
    : Answer * sql.Database :=
  match checkAdminAuth db (Authorization rq) with
  | (false, code, errMsg) => (Failure code errMsg, db)
  | (true, _, _) =>
      match Bind rq with
      | None => (Failure StatusBadRequest "Invalid request format", db)
      | Some reqHotkey =>
          if String.eqb reqHotkey "" then
            (Failure StatusBadRequest "hotkey is required", db)
          else
            match sql.delete_where_hotkey E db reqHotkey with
            | None =>
                (Failure StatusInternalServerError
                   "Failed to delete API key", db)
            | Some (db', O) => (Failure StatusNotFound "API key not found", db')
            | Some (db', S _) =>
                (Message StatusOK "API key removed successfully", db')
            end
      end
  end.

(** [func GetKey(c echo.Context) error]; it sends no statement that
    writes. *)
Definition GetKey (db : sql.Database) (rq : Inbound) : Answer :=
  match checkAdminAuth db (Authorization rq) with
  | (false, code, errMsg) => Failure code errMsg
  | (true, _, _) =>
      match Bind rq with
      | None => Failure StatusBadRequest "Invalid request format"
      | Some reqHotkey =>
          if String.eqb reqHotkey "" then
            Failure StatusBadRequest "hotkey is required"
          else
            match sql.select_where_hotkey E sql.key_value db reqHotkey with
            | sql.ErrNoRows => Failure StatusNotFound "API key not found"
            | sql.ScanFails =>
                Failure StatusInternalServerError "Failed to retrieve API key"
            | sql.Found keyValue => Key reqHotkey keyValue
            end
      end
  end.

End Handlers.

(** The key store that [validateAPIKey] sees in a table whose columns are
    compared byte by byte: the hotkey of the first row of each key value,
    and the time of last use of each hotkey that has one. *)
Definition key_store (db : sql.Database) : KeyStore :=
  mkKeyStore
    (list_to_map (map (fun r => (sql.key_value r, sql.hotkey r)) (sql.api_keys db)))
    (list_to_map
       (omap (fun r => pair (sql.hotkey r) <$> sql.last_used_at r)
          (sql.api_keys db)))
    (sql.answers db).

End admin.

(* ===================================================================== *)
(** * What a caller reads in an answer                                   *)
(* ===================================================================== *)

Module caller.
Import shared routes.

(** The body of the answer says that [verified] is false and that [error]
    is [msg].  The bytes of a [Blob] are read with the decoder that the
    handler itself uses for a backend reply. *)
Definition says_unverified_with {float64 : Type} (X : Externals float64)
    (msg : string) (p : Payload float64) : Prop :=
  match p with
  | Envelope e => e = msg
  | Typed r => Verified r = false /\ Error r = msg
  | Blob b =>
      exists m, json_Unmarshal_map X b = inr (Some m) /\
                m !! "verified" = Some (JBool false) /\
                m !! "error" = Some (JString msg)
  end.

End caller.

(* ===================================================================== *)
(** * Concrete surroundings for the examples                             *)
(* ===================================================================== *)

(** A small instance of what the handler calls outside the repository, on
    which the handler can be evaluated.  Its codec knows the few JSON texts
    that the examples use, and agrees with [encoding/json] on them; its
    number type is [Z]. *)

Module fixture.
Import config shared routes.

(** The bytes of a text in which each apostrophe stands for a double
    quote. *)
Definition json_text (s : string) : list byte :=
  map (fun b => if Byte.eqb b x27 then x22 else b) (list_byte_of_string s).

Definition same_bytes (a b : list byte) : bool :=
  String.eqb (string_of_list_byte a) (string_of_list_byte b).

Definition empty_object : list byte := json_text "{}".
Definition json_null : list byte := json_text "null".
Definition verified_true : list byte := json_text "{'verified':true}".
Definition verified_false : list byte := json_text "{'verified':false}".
Definition truncated : list byte := json_text "{'verified':".

Definition zero_response : VerificationResponse Z :=
  mkVerificationResponse "" false "" "" JNull JNull 0.

Definition positive_response : VerificationResponse Z :=
  mkVerificationResponse "" true "" "" JNull JNull 0.

Definition externals (backend : BackendCall -> Reply) : Externals Z :=
  {| json_Marshal_request := fun req =>
       inr (json_text ("{'model':'" +:+ Model req +:+ "'}"));
     json_Marshal_response := fun r =>
       inr (if Verified r then verified_true else verified_false);
     json_Unmarshal_response := fun b =>
       if same_bytes b verified_true then inr positive_response
       else if same_bytes b verified_false then inr zero_response
       else if same_bytes b empty_object then inr zero_response
       else inl "unexpected end of JSON input";
     json_Unmarshal_map := fun b =>
       if same_bytes b empty_object then inr (Some ∅)
       else if same_bytes b json_null then inr None
       else if same_bytes b verified_true
            then inr (Some {["verified" := JBool true]})
       else inl "unexpected end of JSON input";
     http_NewRequest := fun _ => None;
     client_Do := backend;
     int_of_float64 := fun x => x |}.

(** A backend whose reply is the JSON object with no member. *)
Definition silent_backend (call : BackendCall) : Reply := Replies empty_object.

(** A backend that verifies everything. *)
Definition agreeing_backend (call : BackendCall) : Reply := Replies verified_true.

Definition keys : KeyStore :=
  mkKeyStore {["secret-1" := "hotkey-1"]} ∅ true.

Definition request (model requestID : string) : VerificationRequest Z :=
  mkVerificationRequest model "completion" (Some ∅) (Some []) requestID.

Definition clock : Clock := mkClock 100 100 200.

(** A database that compares byte by byte and takes up to 255 bytes in a
    column. *)
Definition engine : sql.Engine :=
  sql.mkEngine String.eqb (fun s => Nat.leb (String.length s) 255).

(** A table with the administrator and one other key. *)
Definition table : sql.Database :=
  sql.mkDatabase
    [ sql.mkRow "admin" "admin-key" 0 None true;
      sql.mkRow "hotkey-1" "secret-1" 10 None false ]
    true.

End fixture.

(* ===================================================================== *)
(** * Properties of the expiring cache                                   *)
(* ===================================================================== *)

Import config.

Lemma After_true (t u : Z) : After t u = true <-> u < t.
Proof. unfold After. apply Z.ltb_lt. Qed.

Lemma After_false (t u : Z) : After t u = false <-> t <= u.
Proof. unfold After. apply Z.ltb_ge. Qed.

Lemma Set_lookup_same (c : gmap string CacheEntry) now k v ttl :
  Set_ c now k v ttl !! k = Some (mkCacheEntry v (now + ttl)).
Proof. unfold Set_, Add. apply lookup_insert_eq. Qed.

Lemma Set_lookup_other (c : gmap string CacheEntry) now k k' v ttl :
  k <> k' -> Set_ c now k v ttl !! k' = c !! k'.
Proof. intros Hne. unfold Set_. by apply lookup_insert_ne. Qed.

(** [Get] on a key that is present: the entry is returned up to and at the
    instant [ExpiresAt], and not after it. *)
Lemma Get_present (c : gmap string CacheEntry) now k e :
  c !! k = Some e ->
  Get c now k =
    if ExpiresAt e <? now then mkGetResult [] false (Some k)
    else mkGetResult (Response e) true None.
Proof. intros Hk. unfold Get, After. by rewrite Hk. Qed.

Lemma Get_absent (c : gmap string CacheEntry) now k :
  c !! k = None -> Get c now k = mkGetResult [] false None.
Proof. intros Hk. unfold Get. by rewrite Hk. Qed.

(** ** The loop of [Cleanup] *)

Section Sweep.

Variable now : Z.

(** The loop only deletes. *)
Lemma loop_lookup_Some c l k e :
  foldr (uncurry (sweep now)) c l !! k = Some e -> c !! k = Some e.
Proof.
  revert e. induction l as [|[k' e'] l IH]; intros e; simpl; [done|].
  unfold sweep at 1. destruct (After now (ExpiresAt e')); [|by auto].
  intros H. apply lookup_delete_Some in H as [_ H]. by auto.
Qed.

(** A visited entry that is past its expiry is gone after the loop. *)
Lemma loop_deletes c l k e :
  (k, e) ∈ l -> After now (ExpiresAt e) = true -> foldr (uncurry (sweep now)) c l !! k = None.
Proof.
  intros Hin Hexp. induction l as [|[k' e'] l IH]; [by inversion Hin|].
  simpl. unfold sweep at 1.
  apply elem_of_cons in Hin as [Heq|Hin].
  - inversion Heq; subst k' e'. rewrite Hexp. apply lookup_delete_eq.
  - destruct (After now (ExpiresAt e')); [|by auto].
    destruct (decide (k' = k)) as [->|Hne].
    + apply lookup_delete_eq.
    + rewrite lookup_delete_ne; by auto.
Qed.

(** A key none of whose visited entries is past its expiry is kept. *)
Lemma loop_keeps c l k :
  (forall e, (k, e) ∈ l -> After now (ExpiresAt e) = false) ->
  foldr (uncurry (sweep now)) c l !! k = c !! k.
Proof.
  induction l as [|[k' e'] l IH]; intros Hall; [done|].
  simpl. unfold sweep at 1.
  assert (foldr (uncurry (sweep now)) c l !! k = c !! k) as IH'.
  { apply IH. intros e He. apply Hall. by right. }
  destruct (After now (ExpiresAt e')) eqn:Hexp; [|done].
  destruct (decide (k' = k)) as [->|Hne].
  - rewrite (Hall e') in Hexp; [done|by left].
  - by rewrite lookup_delete_ne.
Qed.

End Sweep.

(** What [Cleanup] leaves under each key. *)
Lemma Cleanup_lookup (c : gmap string CacheEntry) now k :
  Cleanup c now !! k =
    match c !! k with
    | Some e => if ExpiresAt e <? now then None else Some e
    | None => None
    end.
Proof.
  unfold Cleanup. rewrite map_fold_foldr.
  destruct (c !! k) as [e|] eqn:Hk.
  - destruct (ExpiresAt e <? now) eqn:Hexp.
    + apply (loop_deletes now c _ k e); [by apply elem_of_map_to_list|done].
    + rewrite loop_keeps; [done|].
      intros e' He'. apply elem_of_map_to_list in He'.
      rewrite Hk in He'. by inversion He'; subst.
  - destruct (foldr _ _ _ !! k) as [e|] eqn:Hf; [|done].
    apply loop_lookup_Some in Hf. congruence.
Qed.

(** ** [Get] *)

(** C1, as the code has it: [Get k] returns [(v, true)] exactly when an
    entry for [k] exists, holds [v], and the current time is not after its
    [ExpiresAt] (so the entry is still returned at the instant [ExpiresAt]
    itself); once the clock is past [ExpiresAt], [Get k] returns
    [found = false] although nothing has removed the entry from the map. *)
Theorem Get_returns_entry_until_expiry (c : gmap string CacheEntry) now k :
  (forall v,
     (value (Get c now k) = v /\ found (Get c now k) = true) <->
     (exists e, c !! k = Some e /\ Response e = v /\ now <= ExpiresAt e)) /\
  (forall e, c !! k = Some e -> ExpiresAt e < now ->
     found (Get c now k) = false /\ value (Get c now k) = [] /\
     c !! k = Some e).
Proof.
  split.
  - intros v. destruct (c !! k) as [e|] eqn:Hk.
    + rewrite (Get_present c now k e Hk).
      destruct (ExpiresAt e <? now) eqn:Hexp; simpl.
      * apply Z.ltb_lt in Hexp. split; [by intros [_ ?]|].
        intros (e' & He' & _ & Hle). inversion He'; subst. lia.
      * apply Z.ltb_ge in Hexp. split.
        -- intros [Hv _]. by exists e.
        -- intros (e' & He' & Hv & _). by inversion He'; subst.
    + rewrite (Get_absent c now k Hk). simpl. split; [by intros [_ ?]|].
      by intros (e' & He' & _).
  - intros e Hk Hexp. rewrite (Get_present c now k e Hk).
    apply Z.ltb_lt in Hexp. by rewrite Hexp.
Qed.

(** C1 as stated fails at the instant of expiry: the entry expires at 10,
    the clock reads 10, which is not strictly before 10, and [Get] still
    returns the value with [found = true]. *)
Lemma Get_at_the_instant_of_expiry :
  let c : gmap string CacheEntry := {["req-1" := mkCacheEntry [x41] 10]} in
  c !! "req-1" = Some (mkCacheEntry [x41] 10) /\
  ~ (10 < ExpiresAt (mkCacheEntry [x41] 10)) /\
  value (Get c 10 "req-1") = [x41] /\
  found (Get c 10 "req-1") = true.
Proof.
  simpl. split; [by rewrite lookup_singleton_eq|]. split; [simpl; lia|].
  unfold Get. by rewrite lookup_singleton_eq.
Qed.

(** ** [Set] followed by [Get] *)

(** C2: for every cache, key, value and TTL [t > 0], [Set k v t] at time
    [now] stores under [k] the entry [(v, now + t)], whatever [k] held
    before, and a [Get k] that reads the clock at [now], or at any later
    time up to [now + t], returns [(v, true)]. *)
Theorem Set_then_Get (c : gmap string CacheEntry) now now' k v t :
  0 < t -> now <= now' <= now + t ->
  Set_ c now k v t !! k = Some (mkCacheEntry v (now + t)) /\
  Get (Set_ c now k v t) now' k = mkGetResult v true None.
Proof.
  intros Ht Hnow. split; [apply Set_lookup_same|].
  rewrite (Get_present _ now' k _ (Set_lookup_same c now k v t)). simpl.
  destruct (now + t <? now') eqn:H; [apply Z.ltb_lt in H; lia|done].
Qed.

(** ** [Cleanup] *)

(** C8, as the code has it: [Cleanup] removes exactly the entries whose
    [ExpiresAt] is strictly before the time of the sweep.  Such an entry is
    gone afterwards; an entry whose expiry is that time or later is left as
    it was; and a key that held nothing holds nothing. *)
Theorem Cleanup_removes_exactly_the_expired (c : gmap string CacheEntry) now k :
  (forall e, c !! k = Some e -> ExpiresAt e < now -> Cleanup c now !! k = None) /\
  (forall e, c !! k = Some e -> now <= ExpiresAt e ->
     Cleanup c now !! k = Some e) /\
  (c !! k = None -> Cleanup c now !! k = None).
Proof.
  rewrite Cleanup_lookup. repeat split.
  - intros e -> H. apply Z.ltb_lt in H. by rewrite H.
  - intros e -> H. apply Z.ltb_ge in H. by rewrite H.
  - by intros ->.
Qed.

(** C8 as stated fails at the instant of expiry: an entry with
    [ExpiresAt = now], hence with [ExpiresAt <= now], survives the sweep. *)
Lemma Cleanup_at_the_instant_of_expiry :
  let c : gmap string CacheEntry := {["req-1" := mkCacheEntry [x41] 5]} in
  c !! "req-1" = Some (mkCacheEntry [x41] 5) /\
  ExpiresAt (mkCacheEntry [x41] 5) <= 5 /\
  Cleanup c 5 !! "req-1" = Some (mkCacheEntry [x41] 5).
Proof.
  simpl. split; [by rewrite lookup_singleton_eq|]. split; [simpl; lia|].
  rewrite Cleanup_lookup. by rewrite lookup_singleton_eq.
Qed.

(** ** The cache under concurrent use *)

Import locked.

(** C9 on the code: along [lost_write] the clock never goes back and every
    step is one that the code can take.  After its first three steps the
    cache holds under [req-1] the value of the last [Set], good until 106,
    and one deletion of [req-1] has been started.  Once that deletion has
    run, the [Get] at time 8 finds nothing: the goroutine deletes the key
    without looking at the entry again, which [Cleanup] does before it
    deletes. *)
Theorem deferred_delete_drops_a_fresh_entry :
  monotone 0 lost_write = true /\
  (exists s,
     run init (take 3 lost_write) = Some (s, [([], false)]) /\
     store s !! "req-1" = Some (mkCacheEntry [x42] 106) /\
     pending s = ["req-1"]) /\
  (exists s,
     run init lost_write = Some (s, [([], false); ([], false)]) /\
     store s !! "req-1" = None /\
     pending s = []) /\
  8 <= 106.
Proof.
  split; [reflexivity|]. split; [|split; [|lia]].
  - eexists. split; [vm_compute; reflexivity|].
    split; vm_compute; reflexivity.
  - eexists. split; [vm_compute; reflexivity|].
    split; vm_compute; reflexivity.
Qed.

(** For comparison: when no [Set] of [k] and no deferred deletion of [k]
    runs, and the clock stays within the expiry, the entry of [k] is still
    there at the end, whatever else ran. *)
Lemma entry_survives_other_steps sched :
  forall (s s' : State) outs k e,
    store s !! k = Some e ->
    Forall (fun '(t, op) => t <= ExpiresAt e /\ writes_to k op = false) sched ->
    run s sched = Some (s', outs) ->
    store s' !! k = Some e.
Proof.
  induction sched as [|[t op] rest IH]; intros s s' outs k e Hk Hall Hrun.
  - simpl in Hrun. by inversion Hrun; subst.
  - apply Forall_cons in Hall as [[Ht Hw] Hall]. simpl in Hrun.
    destruct (step s t op) as [[s1 out]|] eqn:Hstep; [|done].
    destruct (run s1 rest) as [[s2 outs2]|] eqn:Hrest; [|done].
    inversion Hrun; subst s2. clear Hrun.
    apply (IH s1 s' outs2 k e); [|done|done].
    destruct op as [k' v ttl|k'| |k']; simpl in Hstep, Hw.
    + inversion Hstep; subst; simpl. rewrite Set_lookup_other; [done|].
      intros ->. by rewrite String.eqb_refl in Hw.
    + by inversion Hstep; subst.
    + inversion Hstep; subst; simpl. rewrite Cleanup_lookup, Hk.
      destruct (ExpiresAt e <? t) eqn:H; [apply Z.ltb_lt in H; lia|done].
    + destruct (remove_first k' (pending s)); [|done].
      inversion Hstep; subst; simpl. rewrite lookup_delete_ne; [done|].
      intros ->. by rewrite String.eqb_refl in Hw.
Qed.

(** ** Instances *)

Lemma Get_returns_entry_until_expiry_witness :
  let c : gmap string CacheEntry := {["req-1" := mkCacheEntry [x41] 10]} in
  c !! "req-1" = Some (mkCacheEntry [x41] 10) /\
  ExpiresAt (mkCacheEntry [x41] 10) < 11 /\
  found (Get c 11 "req-1") = false /\ value (Get c 11 "req-1") = [] /\
  c !! "req-1" = Some (mkCacheEntry [x41] 10).
Proof.
  intros c.
  assert (c !! "req-1" = Some (mkCacheEntry [x41] 10)) as Hk
    by (vm_compute; reflexivity).
  assert (ExpiresAt (mkCacheEntry [x41] 10) < 11) as Hexp by (simpl; lia).
  split; [exact Hk|]. split; [exact Hexp|].
  exact (proj2 (Get_returns_entry_until_expiry c 11 "req-1") _ Hk Hexp).
Defined.

Lemma Set_then_Get_witness :
  let c : gmap string CacheEntry := {["req-1" := mkCacheEntry [x41] 10]} in
  0 < 72 /\ 20 <= 20 <= 20 + 72 /\
  Set_ c 20 "req-1" [x42] 72 !! "req-1" = Some (mkCacheEntry [x42] (20 + 72)) /\
  Get (Set_ c 20 "req-1" [x42] 72) 20 "req-1" = mkGetResult [x42] true None.
Proof.
  intros c.
  assert (0 < 72) as Ht by lia.
  assert (20 <= 20 <= 20 + 72) as Hnow by lia.
  split; [exact Ht|]. split; [exact Hnow|].
  exact (Set_then_Get c 20 20 "req-1" [x42] 72 Ht Hnow).
Defined.

Lemma Cleanup_removes_exactly_the_expired_witness :
  let c : gmap string CacheEntry :=
    {["req-1" := mkCacheEntry [x41] 10; "req-2" := mkCacheEntry [x42] 30]} in
  (c !! "req-1" = Some (mkCacheEntry [x41] 10) /\ 10 < 20 /\
   Cleanup c 20 !! "req-1" = None) /\
  (c !! "req-2" = Some (mkCacheEntry [x42] 30) /\ 20 <= 30 /\
   Cleanup c 20 !! "req-2" = Some (mkCacheEntry [x42] 30)) /\
  (c !! "req-3" = None /\ Cleanup c 20 !! "req-3" = None).
Proof.
  intros c.
  assert (c !! "req-1" = Some (mkCacheEntry [x41] 10)) as H1
    by (vm_compute; reflexivity).
  assert (c !! "req-2" = Some (mkCacheEntry [x42] 30)) as H2
    by (vm_compute; reflexivity).
  assert (c !! "req-3" = None) as H3 by (vm_compute; reflexivity).
  split; [|split].
  - split; [exact H1|]. split; [lia|].
    apply (proj1 (Cleanup_removes_exactly_the_expired c 20 "req-1") _ H1).
    simpl; lia.
  - split; [exact H2|]. split; [lia|].
    apply (proj1 (proj2 (Cleanup_removes_exactly_the_expired c 20 "req-2")) _ H2).
    simpl; lia.
  - split; [exact H3|].
    exact (proj2 (proj2 (Cleanup_removes_exactly_the_expired c 20 "req-3")) H3).
Defined.

(* ===================================================================== *)
(** * Properties of the handler: the steps before the cache              *)
(* ===================================================================== *)

Import shared routes.

Example Split_at_spaces :
  Split "Bearer secret-1" " " = ["Bearer"; "secret-1"] /\
  Split "Bearer  secret-1" " " = ["Bearer"; ""; "secret-1"] /\
  Split "Bearer " " " = ["Bearer"; ""] /\
  Split "Bearer" " " = ["Bearer"] /\
  Split "" " " = [""].
Proof. repeat split. Qed.

Example ToLower_of_the_scheme :
  ToLower "BeArEr" = "bearer" /\ ToLower "Basic-1" = "basic-1".
Proof. split; reflexivity. Qed.

Lemma Split_nonempty s sep : Split s sep <> [].
Proof.
  destruct s as [|c rest]; simpl; [done|].
  destruct (Ascii.eqb c sep); [done|]. by destruct (Split rest sep).
Qed.

(** The header passes the test of [validateAPIKey] on its shape. *)
Lemma shape_test_passes authHeader :
  negb (Nat.eqb (length (Split authHeader " ")) 2)
    || negb (String.eqb (ToLower (index (Split authHeader " ") 0)) "bearer")
    = false <->
  length (Split authHeader " ") = 2%nat /\
  ToLower (index (Split authHeader " ") 0) = "bearer".
Proof.
  rewrite orb_false_iff, !negb_false_iff, Nat.eqb_eq, String.eqb_eq. done.
Qed.

(** A header that fails the test on its shape is refused before the key
    store is touched. *)
Lemma validateAPIKey_misshapen db now authHeader :
  ~ (length (Split authHeader " ") = 2%nat /\
     ToLower (index (Split authHeader " ") 0) = "bearer") ->
  validateAPIKey db now authHeader =
    mkAuthResult false
      (if String.eqb authHeader "" then "authorization required"
       else "invalid authorization format") db [].
Proof.
  intros Hshape. unfold validateAPIKey.
  destruct (String.eqb authHeader ""); [done|].
  destruct (negb _ || negb _) eqn:Htest; [done|].
  by apply shape_test_passes in Htest.
Qed.

(** A header that passes it leads to the lookup of its second part. *)
Lemma validateAPIKey_shaped db now authHeader :
  length (Split authHeader " ") = 2%nat ->
  ToLower (index (Split authHeader " ") 0) = "bearer" ->
  validateAPIKey db now authHeader =
    match QueryRow db (index (Split authHeader " ") 1) with
    | None =>
        mkAuthResult false "invalid API key" db
          [Query (index (Split authHeader " ") 1)]
    | Some hotkey =>
        mkAuthResult true "" (Exec db now hotkey)
          [Query (index (Split authHeader " ") 1); Update hotkey now]
    end.
Proof.
  intros Hlen Hlow. unfold validateAPIKey.
  destruct (String.eqb authHeader "") eqn:Hempty.
  - apply String.eqb_eq in Hempty. subst. by simpl in Hlen.
  - by rewrite (proj2 (shape_test_passes authHeader) (conj Hlen Hlow)).
Qed.

(** An invalid credential never changes the key store. *)
Lemma validateAPIKey_invalid_keeps_store db now authHeader :
  valid (validateAPIKey db now authHeader) = false ->
  keys_after (validateAPIKey db now authHeader) = db.
Proof.
  unfold validateAPIKey.
  destruct (String.eqb authHeader ""); [done|].
  destruct (negb _ || negb _); [done|].
  by destruct (QueryRow db _).
Qed.

(** ** The first three steps of [Verify], in both variants *)

Section Prefix.

Context {float64 : Type} (X : Externals float64).
Variables (cfg : Config) (clk : Clock) (rq : Inbound float64).

Lemma by_path_Verify_unparsed :
  Bind rq = None ->
  by_path.Verify X cfg clk rq =
    mkHandled (Responded 400 (Envelope "Invalid request format"))
      (Cache cfg) (SqlClient cfg) [] [] None.
Proof. intros H. unfold by_path.Verify. by rewrite H. Qed.

Lemma by_header_Verify_unparsed :
  Bind rq = None ->
  by_header.Verify X cfg clk rq =
    mkHandled (Responded 400 (Envelope "Invalid request format"))
      (Cache cfg) (SqlClient cfg) [] [] None.
Proof. intros H. unfold by_header.Verify. by rewrite H. Qed.

Variable request : VerificationRequest float64.
Hypothesis bound : Bind rq = Some request.

Lemma by_path_Verify_missing_field name :
  validateRequiredFields request = (name, true) ->
  by_path.Verify X cfg clk rq =
    mkHandled (Responded 400 (Envelope ("Missing required field: " +:+ name)))
      (Cache cfg) (SqlClient cfg) [] [] None.
Proof. intros H. unfold by_path.Verify. by rewrite bound, H. Qed.

Lemma by_header_Verify_missing_field name :
  validateRequiredFields request = (name, true) ->
  by_header.Verify X cfg clk rq =
    mkHandled (Responded 400 (Envelope ("Missing required field: " +:+ name)))
      (Cache cfg) (SqlClient cfg) [] [] None.
Proof. intros H. unfold by_header.Verify. by rewrite bound, H. Qed.

Variable name : string.
Hypothesis complete : validateRequiredFields request = (name, false).

Lemma by_path_Verify_unauthorized :
  valid (validateAPIKey (SqlClient cfg) (at_auth clk) (Authorization rq)) = false ->
  by_path.Verify X cfg clk rq =
    mkHandled
      (Responded 401
         (Envelope (err (validateAPIKey (SqlClient cfg) (at_auth clk)
                           (Authorization rq)))))
      (Cache cfg) (SqlClient cfg)
      (accesses (validateAPIKey (SqlClient cfg) (at_auth clk) (Authorization rq)))
      [] None.
Proof.
  intros H. unfold by_path.Verify. rewrite bound, complete, H. simpl.
  by rewrite validateAPIKey_invalid_keeps_store.
Qed.

Lemma by_header_Verify_unauthorized :
  valid (validateAPIKey (SqlClient cfg) (at_auth clk) (Authorization rq)) = false ->
  by_header.Verify X cfg clk rq =
    mkHandled
      (Responded 401
         (Envelope (err (validateAPIKey (SqlClient cfg) (at_auth clk)
                           (Authorization rq)))))
      (Cache cfg) (SqlClient cfg)
      (accesses (validateAPIKey (SqlClient cfg) (at_auth clk) (Authorization rq)))
      [] None.
Proof.
  intros H. unfold by_header.Verify. rewrite bound, complete, H. simpl.
  by rewrite validateAPIKey_invalid_keeps_store.
Qed.

End Prefix.

(** ** The shape of the [Authorization] header *)

(** C10: the handler goes on to look the credential up in the key store
    exactly when the header, split at every single space, has two parts of
    which the first is [bearer] once lowered; the credential looked up is
    the second part.  Otherwise the request is refused with 401 and the
    key store has not been accessed.  The scheme is accepted in any case;
    the empty header, a scheme with no token, a third part and a doubled
    space are refused. *)
Theorem bearer_header_gate {float64 : Type} (X : Externals float64)
    (cfg : Config) (clk : Clock) (authHeader : string)
    (request : VerificationRequest float64) :
  let parts := Split authHeader " " in
  let shaped (h : string) :=
    length (Split h " ") = 2%nat /\ ToLower (index (Split h " ") 0) = "bearer" in
  let res := validateAPIKey (SqlClient cfg) (at_auth clk) authHeader in
  let rq := mkInbound authHeader (Some request) in
  (head (accesses res) = Some (Query (index parts 1)) <-> shaped authHeader) /\
  (~ shaped authHeader ->
     valid res = false /\ accesses res = [] /\ keys_after res = SqlClient cfg) /\
  (validateRequiredFields request = ("", false) -> ~ shaped authHeader ->
     by_path.Verify X cfg clk rq =
       mkHandled (Responded 401 (Envelope (err res)))
         (Cache cfg) (SqlClient cfg) [] [] None /\
     by_header.Verify X cfg clk rq =
       mkHandled (Responded 401 (Envelope (err res)))
         (Cache cfg) (SqlClient cfg) [] [] None) /\
  Forall shaped ["Bearer secret-1"; "bearer secret-1"; "BEARER secret-1";
                 "BeArEr secret-1"] /\
  Forall (fun h => ~ shaped h)
    [""; "Bearer"; "secret-1"; "Bearer secret-1 extra"; "Bearer  secret-1";
     "Basic secret-1"].
Proof.
  intros parts shaped res rq.
  assert (~ shaped authHeader ->
          valid res = false /\ accesses res = [] /\
          keys_after res = SqlClient cfg) as Hrefused.
  { intros Hno. subst res. by rewrite (validateAPIKey_misshapen _ _ _ Hno). }
  split; [|split; [exact Hrefused|split; [|split]]].
  - split.
    + intros Hhead. destruct (decide (shaped authHeader)) as [|Hno]; [done|].
      destruct (Hrefused Hno) as (_ & Hacc & _). by rewrite Hacc in Hhead.
    + intros [Hlen Hlow]. subst res parts.
      rewrite (validateAPIKey_shaped _ _ _ Hlen Hlow).
      by destruct (QueryRow _ _).
  - intros Hfields Hno. destruct (Hrefused Hno) as (Hvalid & Hacc & _).
    split.
    + rewrite (by_path_Verify_unauthorized X cfg clk rq request eq_refl ""
                 Hfields Hvalid).
      simpl. fold res. by rewrite Hacc.
    + rewrite (by_header_Verify_unauthorized X cfg clk rq request eq_refl ""
                 Hfields Hvalid).
      simpl. fold res. by rewrite Hacc.
  - repeat constructor.
  - repeat (constructor; [by intros [? ?]|]). constructor.
Qed.

(** A scheme followed by one space and nothing else has two parts, the
    second empty: the empty credential is looked up, and refused by the key
    store. *)
Example scheme_and_trailing_space :
  validateAPIKey fixture.keys 100 "Bearer " =
    mkAuthResult false "invalid API key" fixture.keys [Query ""].
Proof. reflexivity. Qed.

(** ** The required fields *)

(** C5, as the code has it: the four required fields are checked in the
    order model, request type, request parameters, raw chunks; a string
    field is missing when it is empty and the other two when they are nil;
    the first missing field is the one reported, under the name it has in
    the JSON body: [model], [request_type], [request_params], [raw_chunks].
    The handler then answers 400 with the message
    [Missing required field: ] followed by that name, before it looks at the
    credential, the cache or the backend. *)
Theorem required_fields_in_order {float64 : Type} (X : Externals float64)
    (cfg : Config) (clk : Clock) (authHeader : string)
    (request : VerificationRequest float64) :
  let rq := mkInbound authHeader (Some request) in
  (Model request = "" ->
     validateRequiredFields request = ("model", true)) /\
  (Model request <> "" -> RequestType request = "" ->
     validateRequiredFields request = ("request_type", true)) /\
  (Model request <> "" -> RequestType request <> "" ->
   RequestParams request = None ->
     validateRequiredFields request = ("request_params", true)) /\
  (Model request <> "" -> RequestType request <> "" ->
   RequestParams request <> None -> RawChunks request = None ->
     validateRequiredFields request = ("raw_chunks", true)) /\
  (Model request <> "" -> RequestType request <> "" ->
   RequestParams request <> None -> RawChunks request <> None ->
     validateRequiredFields request = ("", false)) /\
  (forall name, validateRequiredFields request = (name, true) ->
     by_path.Verify X cfg clk rq =
       mkHandled
         (Responded 400 (Envelope ("Missing required field: " +:+ name)))
         (Cache cfg) (SqlClient cfg) [] [] None /\
     by_header.Verify X cfg clk rq =
       mkHandled
         (Responded 400 (Envelope ("Missing required field: " +:+ name)))
         (Cache cfg) (SqlClient cfg) [] [] None).
Proof.
  intros rq. unfold validateRequiredFields.
  repeat split.
  - intros ->. done.
  - intros Hm ->. apply String.eqb_neq in Hm. by rewrite Hm.
  - intros Hm Ht ->. apply String.eqb_neq in Hm, Ht. by rewrite Hm, Ht.
  - intros Hm Ht Hp ->. apply String.eqb_neq in Hm, Ht. rewrite Hm, Ht.
    by destruct (RequestParams request).
  - intros Hm Ht Hp Hc. apply String.eqb_neq in Hm, Ht. rewrite Hm, Ht.
    destruct (RequestParams request); [|done].
    by destruct (RawChunks request).
  - by apply (by_path_Verify_missing_field X cfg clk rq request eq_refl).
  - by apply (by_header_Verify_missing_field X cfg clk rq request eq_refl).
Qed.

(** C5 as stated fails on the name: for a request whose model is present
    and whose request type is missing, the message cites [request_type],
    which is not the [requestType] of the claim. *)
Lemma missing_request_type_is_cited_as_request_type :
  let X := fixture.externals fixture.silent_backend in
  let cfg := mkConfig ∅ fixture.keys "http://haproxy" in
  let request : VerificationRequest Z :=
    mkVerificationRequest "deepseek-ai/DeepSeek-R1" "" (Some ∅) (Some []) "" in
  let rq := mkInbound "Bearer secret-1" (Some request) in
  outcome (by_path.Verify X cfg fixture.clock rq) =
    Responded 400 (Envelope "Missing required field: request_type") /\
  outcome (by_header.Verify X cfg fixture.clock rq) =
    Responded 400 (Envelope "Missing required field: request_type") /\
  "Missing required field: request_type" <>
    "Missing required field: requestType".
Proof. repeat split. done. Qed.

(** ** The credential *)

(** C6, as the code has it: a request that presents an invalid credential
    is answered 401 when its body has been parsed and holds the four
    required fields; the first two steps come before the credential is
    looked at, so a body that cannot be parsed, or a missing field, is
    answered 400 whatever the credential is.  In each case the cache is
    left as it was and no backend is called. *)
Theorem invalid_credential_after_the_body_checks {float64 : Type}
    (X : Externals float64) (cfg : Config) (clk : Clock)
    (rq : Inbound float64) :
  let auth := validateAPIKey (SqlClient cfg) (at_auth clk) (Authorization rq) in
  valid auth = false ->
  (forall request,
     Bind rq = Some request -> validateRequiredFields request = ("", false) ->
     by_path.Verify X cfg clk rq =
       mkHandled (Responded 401 (Envelope (err auth)))
         (Cache cfg) (SqlClient cfg) (accesses auth) [] None /\
     by_header.Verify X cfg clk rq =
       mkHandled (Responded 401 (Envelope (err auth)))
         (Cache cfg) (SqlClient cfg) (accesses auth) [] None) /\
  (forall request name,
     Bind rq = Some request -> validateRequiredFields request = (name, true) ->
     by_path.Verify X cfg clk rq =
       mkHandled
         (Responded 400 (Envelope ("Missing required field: " +:+ name)))
         (Cache cfg) (SqlClient cfg) [] [] None /\
     by_header.Verify X cfg clk rq =
       mkHandled
         (Responded 400 (Envelope ("Missing required field: " +:+ name)))
         (Cache cfg) (SqlClient cfg) [] [] None) /\
  (Bind rq = None ->
     by_path.Verify X cfg clk rq =
       mkHandled (Responded 400 (Envelope "Invalid request format"))
         (Cache cfg) (SqlClient cfg) [] [] None /\
     by_header.Verify X cfg clk rq =
       mkHandled (Responded 400 (Envelope "Invalid request format"))
         (Cache cfg) (SqlClient cfg) [] [] None).
Proof.
  intros auth Hinvalid. split; [|split].
  - intros request Hbound Hfields. split.
    + by apply (by_path_Verify_unauthorized X cfg clk rq request Hbound "").
    + by apply (by_header_Verify_unauthorized X cfg clk rq request Hbound "").
  - intros request name Hbound Hfields. split.
    + by apply (by_path_Verify_missing_field X cfg clk rq request Hbound).
    + by apply (by_header_Verify_missing_field X cfg clk rq request Hbound).
  - intros Hbound. split.
    + by apply by_path_Verify_unparsed.
    + by apply by_header_Verify_unparsed.
Qed.

(** C6 as stated fails when a field is missing: the credential
    [wrong-key] is not in the key store, the model is missing, and the
    answer is 400, not 401. *)
Lemma invalid_credential_and_missing_model :
  let X := fixture.externals fixture.silent_backend in
  let cfg := mkConfig ∅ fixture.keys "http://haproxy" in
  let request : VerificationRequest Z :=
    mkVerificationRequest "" "completion" (Some ∅) (Some []) "req-1" in
  let rq := mkInbound "Bearer wrong-key" (Some request) in
  valid (validateAPIKey fixture.keys 100 "Bearer wrong-key") = false /\
  outcome (by_path.Verify X cfg fixture.clock rq) =
    Responded 400 (Envelope "Missing required field: model") /\
  outcome (by_header.Verify X cfg fixture.clock rq) =
    Responded 400 (Envelope "Missing required field: model").
Proof. repeat split. Qed.

(* ===================================================================== *)
(** * Properties of the handler: the cache and the backend               *)
(* ===================================================================== *)

(** ** The lookup *)

Section Lookup.

Context {float64 : Type} (X : Externals float64).
Variables (c : gmap string CacheEntry) (now : Z).
Variable request : VerificationRequest float64.

(** [Get] starts no deletion when it finds the entry. *)
Lemma Get_found_defers_nothing k :
  found (Get c now k) = true -> deferred (Get c now k) = None.
Proof.
  unfold Get. destruct (c !! k) as [e|]; [|done].
  by destruct (After now (ExpiresAt e)).
Qed.

Lemma cached_found :
  RequestID request <> "" ->
  found (Get c now (RequestID request)) = true ->
  cached X c now request =
    match json_Unmarshal_response X (value (Get c now (RequestID request))) with
    | inl _ => (None, None)
    | inr response => (Some response, None)
    end.
Proof.
  intros Hid Hfound. unfold cached.
  apply String.eqb_neq in Hid. rewrite Hid, Hfound.
  rewrite (Get_found_defers_nothing _ Hfound).
  by destruct (json_Unmarshal_response X _).
Qed.

Lemma cached_after_delete :
  cached X (delete (RequestID request) c) now request = (None, None).
Proof.
  unfold cached. destruct (String.eqb (RequestID request) ""); [done|].
  by rewrite Get_absent by apply lookup_delete_eq.
Qed.

End Lookup.

(** ** The steps after the lookup *)

Section Forward.

Context {float64 : Type} (X : Externals float64).
Variables (cfg : Config) (clk : Clock) (rq : Inbound float64).
Variable request : VerificationRequest float64.
Hypothesis bound : Bind rq = Some request.
Hypothesis complete : validateRequiredFields request = ("", false).
Hypothesis authorized :
  valid (validateAPIKey (SqlClient cfg) (at_auth clk) (Authorization rq)) = true.

Lemma by_path_Verify_hit response job :
  cached X (Cache cfg) (at_get clk) request = (Some response, job) ->
  by_path.Verify X cfg clk rq =
    mkHandled (Responded 200 (Typed response)) (Cache cfg)
      (keys_after (validateAPIKey (SqlClient cfg) (at_auth clk) (Authorization rq)))
      (accesses (validateAPIKey (SqlClient cfg) (at_auth clk) (Authorization rq)))
      [] job.
Proof.
  intros Hc. unfold by_path.Verify.
  by rewrite bound, complete, authorized, Hc.
Qed.

Lemma by_header_Verify_hit response job :
  cached X (Cache cfg) (at_get clk) request = (Some response, job) ->
  by_header.Verify X cfg clk rq =
    mkHandled (Responded 200 (Typed response)) (Cache cfg)
      (keys_after (validateAPIKey (SqlClient cfg) (at_auth clk) (Authorization rq)))
      (accesses (validateAPIKey (SqlClient cfg) (at_auth clk) (Authorization rq)))
      [] job.
Proof.
  intros Hc. unfold by_header.Verify.
  by rewrite bound, complete, authorized, Hc.
Qed.

(** Without a cached response to send, the answer is made from what
    [forwardToValis] returns and from nothing else. *)
Lemma by_path_Verify_forwards job :
  cached X (Cache cfg) (at_get clk) request = (None, job) ->
  outcome (by_path.Verify X cfg clk rq) =
    match (by_path.forwardToValis X (HaproxyURL cfg) request).1 with
    | FwdOk response => Responded 200 (Typed response)
    | FwdErr e =>
        Responded 500 (Envelope ("Verification service error: " +:+ e))
    | FwdPanic => Panicked
    end /\
  backend_calls (by_path.Verify X cfg clk rq) =
    (by_path.forwardToValis X (HaproxyURL cfg) request).2 /\
  cache_after (by_path.Verify X cfg clk rq) =
    match (by_path.forwardToValis X (HaproxyURL cfg) request).1 with
    | FwdOk response =>
        if String.eqb (RequestID request) "" then Cache cfg
        else match json_Marshal_response X response with
             | inl _ => Cache cfg
             | inr responseBytes =>
                 Set_ (Cache cfg) (at_set clk) (RequestID request)
                   responseBytes cacheTTL
             end
    | _ => Cache cfg
    end.
Proof.
  intros Hc. unfold by_path.Verify.
  rewrite bound, complete, authorized, Hc. simpl.
  destruct (by_path.forwardToValis X (HaproxyURL cfg) request) as [[r|e|] calls];
    done.
Qed.

Lemma by_header_Verify_forwards job :
  cached X (Cache cfg) (at_get clk) request = (None, job) ->
  outcome (by_header.Verify X cfg clk rq) =
    match (by_header.forwardToValis X (HaproxyURL cfg) request).1 with
    | FwdOk response => Responded 200 (Blob response)
    | FwdErr e =>
        Responded 500 (Envelope ("Verification service error: " +:+ e))
    | FwdPanic => Panicked
    end /\
  backend_calls (by_header.Verify X cfg clk rq) =
    (by_header.forwardToValis X (HaproxyURL cfg) request).2 /\
  cache_after (by_header.Verify X cfg clk rq) =
    match (by_header.forwardToValis X (HaproxyURL cfg) request).1 with
    | FwdOk response =>
        if String.eqb (RequestID request) "" then Cache cfg
        else Set_ (Cache cfg) (at_set clk) (RequestID request) response cacheTTL
    | _ => Cache cfg
    end.
Proof.
  intros Hc. unfold by_header.Verify.
  rewrite bound, complete, authorized, Hc. simpl.
  destruct (by_header.forwardToValis X (HaproxyURL cfg) request) as [[r|e|] calls];
    done.
Qed.

End Forward.

(** ** A cached response *)

(** C3: for a request that has passed the first three steps, that carries a
    request id, and for whose id [Get] finds bytes in the cache: if the
    bytes decode into a [VerificationResponse], both variants answer 200
    with that response, call no backend and leave the cache as it was; if
    they do not decode, the answer and the backend calls are those of the
    same request on a cache that has no entry for the id, the backend calls
    being those of the forwarding step, and the two caches agree afterwards
    on every other key. *)
Theorem cache_hit_short_circuits {float64 : Type} (X : Externals float64)
    (cfg : Config) (clk : Clock) (rq : Inbound float64)
    (request : VerificationRequest float64) :
  let auth := validateAPIKey (SqlClient cfg) (at_auth clk) (Authorization rq) in
  let id := RequestID request in
  let got := Get (Cache cfg) (at_get clk) id in
  let missed := mkConfig (delete id (Cache cfg)) (SqlClient cfg) (HaproxyURL cfg) in
  Bind rq = Some request ->
  validateRequiredFields request = ("", false) ->
  valid auth = true ->
  id <> "" ->
  found got = true ->
  match json_Unmarshal_response X (value got) with
  | inr response =>
      by_path.Verify X cfg clk rq =
        mkHandled (Responded 200 (Typed response)) (Cache cfg)
          (keys_after auth) (accesses auth) [] None /\
      by_header.Verify X cfg clk rq =
        mkHandled (Responded 200 (Typed response)) (Cache cfg)
          (keys_after auth) (accesses auth) [] None
  | inl _ =>
      found (Get (Cache missed) (at_get clk) id) = false /\
      (outcome (by_path.Verify X cfg clk rq) =
         outcome (by_path.Verify X missed clk rq) /\
       backend_calls (by_path.Verify X cfg clk rq) =
         backend_calls (by_path.Verify X missed clk rq) /\
       backend_calls (by_path.Verify X cfg clk rq) =
         (by_path.forwardToValis X (HaproxyURL cfg) request).2 /\
       forall k, k <> id ->
         cache_after (by_path.Verify X cfg clk rq) !! k =
         cache_after (by_path.Verify X missed clk rq) !! k) /\
      (outcome (by_header.Verify X cfg clk rq) =
         outcome (by_header.Verify X missed clk rq) /\
       backend_calls (by_header.Verify X cfg clk rq) =
         backend_calls (by_header.Verify X missed clk rq) /\
       backend_calls (by_header.Verify X cfg clk rq) =
         (by_header.forwardToValis X (HaproxyURL cfg) request).2 /\
       forall k, k <> id ->
         cache_after (by_header.Verify X cfg clk rq) !! k =
         cache_after (by_header.Verify X missed clk rq) !! k)
  end.
Proof.
  intros auth id got missed Hbound Hfields Hvalid Hid Hfound.
  pose proof (cached_found X (Cache cfg) (at_get clk) request Hid Hfound) as Hc.
  fold id got in Hc.
  destruct (json_Unmarshal_response X (value got)) as [e|response].
  - pose proof (cached_after_delete X (Cache cfg) (at_get clk) request) as Hm.
    split; [subst missed id; simpl; by rewrite Get_absent by apply lookup_delete_eq|].
    split.
    + destruct (by_path_Verify_forwards X cfg clk rq request
                  Hbound Hfields Hvalid None Hc) as (Ho & Hb & Hca).
      destruct (by_path_Verify_forwards X missed clk rq request
                  Hbound Hfields Hvalid None Hm) as (Ho' & Hb' & Hca').
      simpl in Ho', Hb', Hca'.
      rewrite Ho, Ho', Hb, Hb', Hca, Hca'. repeat split.
      intros k Hk.
      destruct (by_path.forwardToValis X (HaproxyURL cfg) request).1
        as [r| |]; try by rewrite lookup_delete_ne.
      destruct (String.eqb (RequestID request) "");
        [by rewrite lookup_delete_ne|].
      destruct (json_Marshal_response X r); [by rewrite lookup_delete_ne|].
      rewrite !Set_lookup_other by done. by rewrite lookup_delete_ne.
    + destruct (by_header_Verify_forwards X cfg clk rq request
                  Hbound Hfields Hvalid None Hc) as (Ho & Hb & Hca).
      destruct (by_header_Verify_forwards X missed clk rq request
                  Hbound Hfields Hvalid None Hm) as (Ho' & Hb' & Hca').
      simpl in Ho', Hb', Hca'.
      rewrite Ho, Ho', Hb, Hb', Hca, Hca'. repeat split.
      intros k Hk.
      destruct (by_header.forwardToValis X (HaproxyURL cfg) request).1
        as [r| |]; try by rewrite lookup_delete_ne.
      destruct (String.eqb (RequestID request) "");
        [by rewrite lookup_delete_ne|].
      rewrite !Set_lookup_other by done. by rewrite lookup_delete_ne.
  - split.
    + by apply (by_path_Verify_hit X cfg clk rq request Hbound Hfields Hvalid).
    + by apply (by_header_Verify_hit X cfg clk rq request Hbound Hfields Hvalid).
Qed.

(** ** A reply without [verified] *)

Lemma typed_response_without_verified {float64 : Type} (X : Externals float64)
    (request : VerificationRequest float64)
    (m : gmap string (JSON float64)) :
  m !! "verified" = None ->
  Verified (by_path.typed_response X request m) = false /\
  Error (by_path.typed_response X request m) = by_path.missing_verified.
Proof.
  intros Hm. unfold by_path.typed_response. rewrite Hm. simpl.
  rewrite lookup_insert_ne by done. rewrite !lookup_insert_eq. done.
Qed.

(** C4, as the code has it: take a request that has passed the first three
    steps and has no cached response to send, whose model is known, and a
    backend whose reply decodes to a JSON object with no [verified] member.
    The variant that routes by path answers 200 with [verified = false] and
    the error [Verification service response missing 'verified' field].
    The variant that routes by header answers 200 with the bytes of the
    reply as they are, in which nothing says so.  Neither answers 500. *)
Theorem reply_without_verified {float64 : Type} (X : Externals float64)
    (cfg : Config) (clk : Clock) (rq : Inbound float64)
    (request : VerificationRequest float64)
    (requestBody b : list byte) (m : gmap string (JSON float64)) :
  let auth := validateAPIKey (SqlClient cfg) (at_auth clk) (Authorization rq) in
  Bind rq = Some request ->
  validateRequiredFields request = ("", false) ->
  valid auth = true ->
  (cached X (Cache cfg) (at_get clk) request).1 = None ->
  json_Marshal_request X request = inr requestBody ->
  json_Unmarshal_map X b = inr (Some m) ->
  m !! "verified" = None ->
  (forall path,
     by_path.backendPath (Model request) = Some path ->
     http_NewRequest X (HaproxyURL cfg +:+ path) = None ->
     client_Do X (mkBackendCall (HaproxyURL cfg +:+ path) None requestBody)
       = Replies b ->
     outcome (by_path.Verify X cfg clk rq) =
       Responded 200 (Typed (by_path.typed_response X request m)) /\
     caller.says_unverified_with X by_path.missing_verified
       (Typed (by_path.typed_response X request m))) /\
  (forall server,
     by_header.backendServer (Model request) = Some server ->
     http_NewRequest X (HaproxyURL cfg +:+ "/verify") = None ->
     client_Do X
       (mkBackendCall (HaproxyURL cfg +:+ "/verify") (Some server) requestBody)
       = Replies b ->
     outcome (by_header.Verify X cfg clk rq) = Responded 200 (Blob b) /\
     forall msg, ~ caller.says_unverified_with X msg (Blob b)).
Proof.
  intros auth Hbound Hfields Hvalid Hmiss Hbody Hdec Hm.
  destruct (cached X (Cache cfg) (at_get clk) request) as [hit job] eqn:Hc.
  simpl in Hmiss. subst hit. split.
  - intros path Hpath Hnew Hdo.
    destruct (by_path_Verify_forwards X cfg clk rq request
                Hbound Hfields Hvalid job Hc) as (Ho & _ & _).
    rewrite Ho. unfold by_path.forwardToValis.
    rewrite Hbody, Hpath, Hnew, Hdo, Hdec. simpl. split; [done|].
    exact (typed_response_without_verified X request m Hm).
  - intros server Hserver Hnew Hdo.
    destruct (by_header_Verify_forwards X cfg clk rq request
                Hbound Hfields Hvalid job Hc) as (Ho & _ & _).
    rewrite Ho. unfold by_header.forwardToValis.
    rewrite Hbody, Hnew, Hserver, Hdo. simpl. split; [done|].
    intros msg (m' & Hdec' & Hv & _). congruence.
Qed.

(** C4 as stated fails in the variant that routes by header: the backend
    replies with the JSON object that has no member, and the caller is sent
    those two bytes with status 200; they hold neither [verified] nor an
    error. *)
Lemma header_variant_passes_the_reply_through :
  let X := fixture.externals fixture.silent_backend in
  let cfg := mkConfig ∅ fixture.keys "http://haproxy" in
  let rq := mkInbound "Bearer secret-1"
              (Some (fixture.request "deepseek-ai/DeepSeek-R1" "req-1")) in
  json_Unmarshal_map X fixture.empty_object = inr (Some ∅) /\
  (∅ : gmap string (JSON Z)) !! "verified" = None /\
  backend_calls (by_header.Verify X cfg fixture.clock rq) =
    [mkBackendCall "http://haproxy/verify" (Some "r1")
       (fixture.json_text "{'model':'deepseek-ai/DeepSeek-R1'}")] /\
  outcome (by_header.Verify X cfg fixture.clock rq) =
    Responded 200 (Blob [x7b; x7d]) /\
  ~ caller.says_unverified_with X by_path.missing_verified (Blob [x7b; x7d]).
Proof.
  intros X cfg rq.
  split; [reflexivity|]. split; [reflexivity|].
  split; [vm_compute; reflexivity|]. split; [vm_compute; reflexivity|].
  intros (m & Hdec & Hv & _).
  assert (json_Unmarshal_map X [x7b; x7d] = inr (Some ∅)) as Hempty
    by reflexivity.
  rewrite Hempty in Hdec. inversion Hdec; subst m.
  by rewrite lookup_empty in Hv.
Qed.

(** ** An unknown model *)

Lemma backendPath_unknown model :
  model <> "deepseek-ai/DeepSeek-R1" -> model <> "deepseek-ai/DeepSeek-V3" ->
  by_path.backendPath model = None.
Proof.
  intros H1 H2. unfold by_path.backendPath.
  apply String.eqb_neq in H1, H2. by rewrite H1, H2.
Qed.

Lemma backendServer_unknown model :
  model <> "deepseek-ai/DeepSeek-R1" -> model <> "deepseek-ai/DeepSeek-V3" ->
  by_header.backendServer model = None.
Proof.
  intros H1 H2. unfold by_header.backendServer.
  apply String.eqb_neq in H1, H2. by rewrite H1, H2.
Qed.

(** C7: for a request whose model is neither of the two known strings, the
    forwarding step of both variants returns an error and has called no
    backend; the error is [unsupported model: ] followed by the model as
    soon as the request could be prepared (its body encoded and, in the
    variant that routes by header, the request object built, both of which
    come first in the code and can fail on their own).  Whatever the rest
    of the inbound request is, the handler calls no backend.  A model that
    differs from a known one in case only is unknown. *)
Theorem unknown_model_reaches_no_backend {float64 : Type}
    (X : Externals float64) (haproxyURL : string)
    (req : VerificationRequest float64) :
  Model req <> "deepseek-ai/DeepSeek-R1" ->
  Model req <> "deepseek-ai/DeepSeek-V3" ->
  (exists e, by_path.forwardToValis X haproxyURL req = (FwdErr e, [])) /\
  (exists e, by_header.forwardToValis X haproxyURL req = (FwdErr e, [])) /\
  (forall requestBody, json_Marshal_request X req = inr requestBody ->
     by_path.forwardToValis X haproxyURL req =
       (FwdErr ("unsupported model: " +:+ Model req), [])) /\
  (forall requestBody, json_Marshal_request X req = inr requestBody ->
     http_NewRequest X (haproxyURL +:+ "/verify") = None ->
     by_header.forwardToValis X haproxyURL req =
       (FwdErr ("unsupported model: " +:+ Model req), [])) /\
  (forall cfg clk authHeader,
     backend_calls (by_path.Verify X cfg clk (mkInbound authHeader (Some req))) = [] /\
     backend_calls (by_header.Verify X cfg clk (mkInbound authHeader (Some req))) = []) /\
  by_path.backendPath "deepseek-ai/deepseek-r1" = None /\
  by_header.backendServer "deepseek-ai/deepseek-r1" = None.
Proof.
  intros H1 H2.
  pose proof (backendPath_unknown _ H1 H2) as Hpath.
  pose proof (backendServer_unknown _ H1 H2) as Hserver.
  assert (forall u, exists e, by_path.forwardToValis X u req = (FwdErr e, []))
    as Hp.
  { intros u. unfold by_path.forwardToValis. rewrite Hpath.
    destruct (json_Marshal_request X req); eauto. }
  assert (forall u, exists e, by_header.forwardToValis X u req = (FwdErr e, []))
    as Hh.
  { intros u. unfold by_header.forwardToValis. rewrite Hserver.
    destruct (json_Marshal_request X req); [by eauto|].
    destruct (http_NewRequest X _); eauto. }
  split; [exact (Hp haproxyURL)|]. split; [exact (Hh haproxyURL)|].
  split; [|split; [|split]].
  - intros requestBody Hbody. unfold by_path.forwardToValis.
    by rewrite Hbody, Hpath.
  - intros requestBody Hbody Hnew. unfold by_header.forwardToValis.
    by rewrite Hbody, Hnew, Hserver.
  - intros cfg clk authHeader. split.
    + unfold by_path.Verify.
      cbn -[by_path.forwardToValis cached validateAPIKey validateRequiredFields].
      destruct (validateRequiredFields req) as [name [|]]; [done|].
      destruct (negb _); [done|].
      destruct (cached X _ _ req) as [[response|] job]; [done|].
      destruct (Hp (HaproxyURL cfg)) as [e ->]. done.
    + unfold by_header.Verify.
      cbn -[by_header.forwardToValis cached validateAPIKey validateRequiredFields].
      destruct (validateRequiredFields req) as [name [|]]; [done|].
      destruct (negb _); [done|].
      destruct (cached X _ _ req) as [[response|] job]; [done|].
      destruct (Hh (HaproxyURL cfg)) as [e ->]. done.
  - done.
Qed.

(* ===================================================================== *)
(** * Instances of the properties of the handler                         *)
(* ===================================================================== *)

(** A doubled space after the scheme: 401, and the key store is not
    touched. *)
Lemma bearer_header_gate_witness :
  let X := fixture.externals fixture.silent_backend in
  let cfg := mkConfig ∅ fixture.keys "http://haproxy" in
  let request := fixture.request "deepseek-ai/DeepSeek-R1" "req-1" in
  let rq := mkInbound "Bearer  secret-1" (Some request) in
  validateRequiredFields request = ("", false) /\
  ~ (length (Split "Bearer  secret-1" " ") = 2%nat /\
     ToLower (index (Split "Bearer  secret-1" " ") 0) = "bearer") /\
  by_path.Verify X cfg fixture.clock rq =
    mkHandled (Responded 401 (Envelope "invalid authorization format"))
      ∅ fixture.keys [] [] None /\
  by_header.Verify X cfg fixture.clock rq =
    mkHandled (Responded 401 (Envelope "invalid authorization format"))
      ∅ fixture.keys [] [] None.
Proof.
  intros X cfg request rq.
  assert (validateRequiredFields request = ("", false)) as Hfields
    by reflexivity.
  assert (~ (length (Split "Bearer  secret-1" " ") = 2%nat /\
             ToLower (index (Split "Bearer  secret-1" " ") 0) = "bearer"))
    as Hshape by (intros [Hlen _]; discriminate Hlen).
  split; [exact Hfields|]. split; [exact Hshape|].
  exact (proj1 (proj2 (proj2
           (bearer_header_gate X cfg fixture.clock "Bearer  secret-1" request)))
         Hfields Hshape).
Defined.

(** The model is present and the request type is missing. *)
Lemma required_fields_in_order_witness :
  let X := fixture.externals fixture.silent_backend in
  let cfg := mkConfig ∅ fixture.keys "http://haproxy" in
  let request : VerificationRequest Z :=
    mkVerificationRequest "deepseek-ai/DeepSeek-R1" "" None None "req-1" in
  let rq := mkInbound "Bearer secret-1" (Some request) in
  Model request <> "" /\ RequestType request = "" /\
  validateRequiredFields request = ("request_type", true) /\
  by_path.Verify X cfg fixture.clock rq =
    mkHandled
      (Responded 400 (Envelope "Missing required field: request_type"))
      ∅ fixture.keys [] [] None /\
  by_header.Verify X cfg fixture.clock rq =
    mkHandled
      (Responded 400 (Envelope "Missing required field: request_type"))
      ∅ fixture.keys [] [] None.
Proof.
  intros X cfg request rq.
  assert (Model request <> "") as Hmodel by discriminate.
  assert (RequestType request = "") as Htype by reflexivity.
  pose proof (required_fields_in_order X cfg fixture.clock "Bearer secret-1"
                request) as (_ & Hsecond & _ & _ & _ & Hanswer).
  split; [exact Hmodel|]. split; [exact Htype|].
  split; [exact (Hsecond Hmodel Htype)|].
  exact (Hanswer "request_type" (Hsecond Hmodel Htype)).
Defined.

(** A complete request with a credential that the key store does not
    hold. *)
Lemma invalid_credential_after_the_body_checks_witness :
  let X := fixture.externals fixture.silent_backend in
  let cfg := mkConfig ∅ fixture.keys "http://haproxy" in
  let request := fixture.request "deepseek-ai/DeepSeek-R1" "req-1" in
  let rq := mkInbound "Bearer wrong-key" (Some request) in
  valid (validateAPIKey fixture.keys 100 "Bearer wrong-key") = false /\
  validateRequiredFields request = ("", false) /\
  by_path.Verify X cfg fixture.clock rq =
    mkHandled (Responded 401 (Envelope "invalid API key"))
      ∅ fixture.keys [Query "wrong-key"] [] None /\
  by_header.Verify X cfg fixture.clock rq =
    mkHandled (Responded 401 (Envelope "invalid API key"))
      ∅ fixture.keys [Query "wrong-key"] [] None.
Proof.
  intros X cfg request rq.
  assert (valid (validateAPIKey (SqlClient cfg) (at_auth fixture.clock)
                   (Authorization rq)) = false) as Hinvalid by reflexivity.
  assert (validateRequiredFields request = ("", false)) as Hfields
    by reflexivity.
  split; [exact Hinvalid|]. split; [exact Hfields|].
  exact (proj1 (invalid_credential_after_the_body_checks X cfg fixture.clock rq
                  Hinvalid) request eq_refl Hfields).
Defined.

(** A model that is not known. *)
Lemma unknown_model_reaches_no_backend_witness :
  let X := fixture.externals fixture.agreeing_backend in
  let req := fixture.request "unknown-model" "req-1" in
  Model req <> "deepseek-ai/DeepSeek-R1" /\
  Model req <> "deepseek-ai/DeepSeek-V3" /\
  by_path.forwardToValis X "http://haproxy" req =
    (FwdErr "unsupported model: unknown-model", []) /\
  by_header.forwardToValis X "http://haproxy" req =
    (FwdErr "unsupported model: unknown-model", []).
Proof.
  intros X req.
  assert (Model req <> "deepseek-ai/DeepSeek-R1") as H1 by discriminate.
  assert (Model req <> "deepseek-ai/DeepSeek-V3") as H2 by discriminate.
  pose proof (unknown_model_reaches_no_backend X "http://haproxy" req H1 H2)
    as (_ & _ & Hpath & Hheader & _).
  split; [exact H1|]. split; [exact H2|]. split.
  - exact (Hpath _ eq_refl).
  - exact (Hheader _ eq_refl eq_refl).
Defined.

(** Bytes in the cache that decode, and bytes that do not. *)
Lemma cache_hit_short_circuits_witness :
  let X := fixture.externals fixture.agreeing_backend in
  let request := fixture.request "deepseek-ai/DeepSeek-R1" "req-1" in
  let rq := mkInbound "Bearer secret-1" (Some request) in
  let good : gmap string CacheEntry :=
    {["req-1" := mkCacheEntry fixture.verified_true 1000]} in
  let bad : gmap string CacheEntry :=
    {["req-1" := mkCacheEntry fixture.truncated 1000]} in
  (found (Get good 100 "req-1") = true /\
   by_path.Verify X (mkConfig good fixture.keys "http://haproxy")
     fixture.clock rq =
     mkHandled (Responded 200 (Typed fixture.positive_response)) good
       (Exec fixture.keys 100 "hotkey-1")
       [Query "secret-1"; Update "hotkey-1" 100] [] None) /\
  (found (Get bad 100 "req-1") = true /\
   outcome (by_header.Verify X (mkConfig bad fixture.keys "http://haproxy")
              fixture.clock rq) =
   outcome (by_header.Verify X (mkConfig (delete "req-1" bad) fixture.keys
                                  "http://haproxy") fixture.clock rq)).
Proof.
  intros X request rq good bad.
  assert (validateRequiredFields request = ("", false)) as Hfields
    by reflexivity.
  assert (RequestID request <> "") as Hid by discriminate.
  assert (valid (validateAPIKey fixture.keys 100 "Bearer secret-1") = true)
    as Hvalid by reflexivity.
  assert (found (Get good 100 "req-1") = true) as Hgood by reflexivity.
  assert (found (Get bad 100 "req-1") = true) as Hbad by reflexivity.
  split.
  - split; [exact Hgood|].
    exact (proj1 (cache_hit_short_circuits X
                    (mkConfig good fixture.keys "http://haproxy")
                    fixture.clock rq request eq_refl Hfields Hvalid Hid Hgood)).
  - split; [exact Hbad|].
    exact (proj1 (proj2 (proj2 (cache_hit_short_circuits X
                    (mkConfig bad fixture.keys "http://haproxy")
                    fixture.clock rq request eq_refl Hfields Hvalid Hid Hbad)))).
Defined.

(** A backend whose reply is the object with no member. *)
Lemma reply_without_verified_witness :
  let X := fixture.externals fixture.silent_backend in
  let cfg := mkConfig ∅ fixture.keys "http://haproxy" in
  let request := fixture.request "deepseek-ai/DeepSeek-R1" "req-1" in
  let rq := mkInbound "Bearer secret-1" (Some request) in
  (json_Unmarshal_map X fixture.empty_object = inr (Some ∅) /\
   (∅ : gmap string (JSON Z)) !! "verified" = None) /\
  outcome (by_path.Verify X cfg fixture.clock rq) =
    Responded 200
      (Typed (mkVerificationResponse "req-1" false
                "Verification service response missing 'verified' field" ""
                JNull JNull 0)) /\
  outcome (by_header.Verify X cfg fixture.clock rq) =
    Responded 200 (Blob fixture.empty_object).
Proof.
  intros X cfg request rq.
  assert (json_Unmarshal_map X fixture.empty_object = inr (Some ∅)) as Hdec
    by reflexivity.
  assert ((∅ : gmap string (JSON Z)) !! "verified" = None) as Hm
    by reflexivity.
  pose proof (reply_without_verified X cfg fixture.clock rq request
                (fixture.json_text "{'model':'deepseek-ai/DeepSeek-R1'}")
                fixture.empty_object ∅
                eq_refl eq_refl eq_refl eq_refl eq_refl Hdec Hm)
    as [Hpath Hheader].
  split; [exact (conj Hdec Hm)|]. split.
  - exact (proj1 (Hpath "/r1/verify" eq_refl eq_refl eq_refl)).
  - exact (proj1 (Hheader "r1" eq_refl eq_refl eq_refl)).
Defined.

(* ===================================================================== *)
(** * More on the expiring cache                                         *)
(* ===================================================================== *)

(** X1: two sweeps are one sweep at the later of their two times, so a
    sweep repeated at the same time changes nothing, and all the sweeps of
    the cleanup routine amount to a single sweep at the latest tick. *)
Theorem Cleanup_twice (c : gmap string CacheEntry) t1 t2 ticks :
  Cleanup (Cleanup c t1) t2 = Cleanup c (Z.max t1 t2) /\
  Cleanup (Cleanup c t1) t1 = Cleanup c t1 /\
  StartCleanupRoutine c (t1 :: ticks) = Cleanup c (foldl Z.max t1 ticks).
Proof.
  assert (forall c' u1 u2,
            Cleanup (Cleanup c' u1) u2 = Cleanup c' (Z.max u1 u2)) as Htwice.
  { intros c' u1 u2. apply map_eq. intros k. rewrite !Cleanup_lookup.
    destruct (c' !! k) as [e|]; [|done].
    destruct (ExpiresAt e <? u1) eqn:H1;
      destruct (ExpiresAt e <? Z.max u1 u2) eqn:H12; try done;
      try destruct (ExpiresAt e <? u2) eqn:H2; try done;
      repeat match goal with
             | H : (_ <? _) = true |- _ => apply Z.ltb_lt in H
             | H : (_ <? _) = false |- _ => apply Z.ltb_ge in H
             end; lia. }
  split; [apply Htwice|]. split.
  - rewrite Htwice. by rewrite Z.max_id.
  - unfold StartCleanupRoutine. simpl.
    revert t1. induction ticks as [|t ticks IH]; intros t1; simpl; [done|].
    rewrite Htwice. apply IH.
Qed.

(** X2: a sweep cannot be seen by a later reader.  A [Get] that reads the
    clock at or after the time of the sweep returns the same value and the
    same [found] on the swept map as on the map before the sweep. *)
Theorem Cleanup_is_invisible_to_Get (c : gmap string CacheEntry) t t' k :
  t <= t' ->
  value (Get (Cleanup c t) t' k) = value (Get c t' k) /\
  found (Get (Cleanup c t) t' k) = found (Get c t' k).
Proof.
  intros Hle. unfold Get, After. rewrite Cleanup_lookup.
  destruct (c !! k) as [e|]; [|done].
  destruct (ExpiresAt e <? t) eqn:H1.
  - apply Z.ltb_lt in H1.
    destruct (ExpiresAt e <? t') eqn:H2; [done|]. apply Z.ltb_ge in H2. lia.
  - by destruct (ExpiresAt e <? t').
Qed.

(** X3: what is read back after a [Set], for any TTL, negative ones
    included: the key is found exactly while the clock is not after
    [now + ttl], the value found is the one that was set, and every other
    key reads as it did before. *)
Theorem Get_after_Set (c : gmap string CacheEntry) now now' k v ttl :
  (found (Get (Set_ c now k v ttl) now' k) = true <-> now' <= now + ttl) /\
  (found (Get (Set_ c now k v ttl) now' k) = true ->
     value (Get (Set_ c now k v ttl) now' k) = v) /\
  (forall k', k <> k' -> Get (Set_ c now k v ttl) now' k' = Get c now' k').
Proof.
  rewrite (Get_present _ now' k _ (Set_lookup_same c now k v ttl)). simpl.
  split; [|split].
  - destruct (now + ttl <? now') eqn:H; simpl.
    + apply Z.ltb_lt in H. split; [done|lia].
    + apply Z.ltb_ge in H. done.
  - by destruct (now + ttl <? now').
  - intros k' Hne. unfold Get. by rewrite Set_lookup_other.
Qed.

(** X4: a sweep only removes.  What it leaves is part of what there was,
    holds no more entries, and holds none whose expiry is before the time
    of the sweep. *)
Theorem Cleanup_leaves_the_unexpired (c : gmap string CacheEntry) t :
  Cleanup c t ⊆ c /\
  (size (Cleanup c t) <= size c)%nat /\
  map_Forall (fun _ e => t <= ExpiresAt e) (Cleanup c t).
Proof.
  assert (Cleanup c t ⊆ c) as Hsub.
  { apply map_subseteq_spec. intros k e. rewrite Cleanup_lookup.
    destruct (c !! k) as [e'|]; [|done].
    by destruct (ExpiresAt e' <? t). }
  split; [exact Hsub|]. split; [by apply map_subseteq_size|].
  intros k e. rewrite Cleanup_lookup.
  destruct (c !! k) as [e'|]; [|done].
  destruct (ExpiresAt e' <? t) eqn:H; [done|].
  apply Z.ltb_ge in H. by intros [= <-].
Qed.

(** X5: the other side of the lost write.  After a [Set] of [k], whatever
    critical sections run next, as long as none of them is a [Set] of [k]
    or the deferred deletion of [k] and the clock stays within the expiry,
    a [Get] of [k] returns the value that was set. *)
Theorem Set_is_read_back_without_writes (s s' : State) sched outs
    k v ttl t t' :
  Forall (fun '(u, op) => u <= t + ttl /\ writes_to k op = false) sched ->
  run (mkState (Set_ (store s) t k v ttl) (pending s)) sched = Some (s', outs) ->
  t' <= t + ttl ->
  exists s'', step s' t' (OpGet k) = Some (s'', Some (v, true)).
Proof.
  intros Hsched Hrun Ht'.
  assert (store s' !! k = Some (mkCacheEntry v (t + ttl))) as Hk.
  { apply (entry_survives_other_steps sched
             (mkState (Set_ (store s) t k v ttl) (pending s)) s' outs k
             (mkCacheEntry v (t + ttl))); [apply Set_lookup_same| |done].
    eapply Forall_impl; [exact Hsched|]. by intros [u op]. }
  simpl. rewrite (Get_present _ t' k _ Hk). simpl.
  destruct (t + ttl <? t') eqn:H; [apply Z.ltb_lt in H; lia|].
  simpl. by eexists.
Qed.

Lemma Cleanup_is_invisible_to_Get_witness :
  let c : gmap string CacheEntry :=
    {["req-1" := mkCacheEntry [x41] 10; "req-2" := mkCacheEntry [x42] 30]} in
  20 <= 25 /\
  (value (Get (Cleanup c 20) 25 "req-1") = [] /\
   found (Get (Cleanup c 20) 25 "req-1") = found (Get c 25 "req-1")) /\
  (value (Get (Cleanup c 20) 25 "req-2") = [x42] /\
   found (Get (Cleanup c 20) 25 "req-2") = found (Get c 25 "req-2")).
Proof.
  intros c. assert (20 <= 25) as Hle by lia.
  split; [exact Hle|]. split.
  - exact (Cleanup_is_invisible_to_Get c 20 25 "req-1" Hle).
  - exact (Cleanup_is_invisible_to_Get c 20 25 "req-2" Hle).
Defined.

Lemma Get_after_Set_witness :
  let c : gmap string CacheEntry := {["req-2" := mkCacheEntry [x42] 30]} in
  found (Get (Set_ c 20 "req-1" [x41] (-5)) 20 "req-1") = false /\
  ("req-1" <> "req-2" /\
   Get (Set_ c 20 "req-1" [x41] (-5)) 20 "req-2" = Get c 20 "req-2").
Proof.
  intros c. split; [reflexivity|].
  assert ("req-1" <> "req-2") as Hne by discriminate.
  split; [exact Hne|].
  exact (proj2 (proj2 (Get_after_Set c 20 20 "req-1" [x41] (-5))) "req-2" Hne).
Defined.

Lemma Set_is_read_back_without_writes_witness :
  let sched := [(3, OpGet "req-1"); (4, OpSet "req-2" [x42] 1);
                (7, OpCleanup); (8, OpGet "req-2")] in
  Forall (fun '(u, op) => u <= 2 + 10 /\ writes_to "req-1" op = false) sched /\
  9 <= 2 + 10 /\
  exists s' outs s'',
    run (mkState (Set_ (store init) 2 "req-1" [x41] 10) (pending init)) sched
      = Some (s', outs) /\
    step s' 9 (OpGet "req-1") = Some (s'', Some ([x41], true)).
Proof.
  intros sched.
  assert (Forall (fun '(u, op) => u <= 2 + 10 /\ writes_to "req-1" op = false)
            sched) as Hsched.
  { repeat constructor; lia. }
  assert (9 <= 2 + 10) as Ht by lia.
  split; [exact Hsched|]. split; [exact Ht|].
  destruct (run (mkState (Set_ (store init) 2 "req-1" [x41] 10) (pending init))
              sched) as [[s' outs]|] eqn:Hrun; [|vm_compute in Hrun; discriminate].
  exists s', outs.
  destruct (Set_is_read_back_without_writes init s' sched outs "req-1" [x41]
              10 2 9 Hsched Hrun Ht) as [s'' Hget].
  exists s''. split; [reflexivity|exact Hget].
Defined.

(* ===================================================================== *)
(** * More on the credential                                             *)
(* ===================================================================== *)

(** No part of a split string holds the separator. *)
Lemma Split_parts_have_no_separator s sep :
  Forall (fun part => Split part sep = [part]) (Split s sep).
Proof.
  induction s as [|c rest IH]; simpl; [by repeat constructor|].
  destruct (Ascii.eqb c sep) eqn:Hc.
  - constructor; [done|exact IH].
  - pose proof (Split_nonempty rest sep) as Hne.
    destruct (Split rest sep) as [|part parts]; [done|].
    apply Forall_cons in IH as [Hpart Hparts].
    constructor; [|exact Hparts]. simpl. by rewrite Hc, Hpart.
Qed.

(** A scheme and a credential, neither of which holds a space, joined by
    one space, split into the two. *)
Lemma Split_scheme_and_credential scheme key :
  Split scheme " " = [scheme] -> Split key " " = [key] ->
  Split (scheme +:+ " " +:+ key) " " = [scheme; key].
Proof.
  intros Hs Hk. induction scheme as [|c rest IH].
  - change ("" +:+ " " +:+ key) with (String " " key).
    change (Split (String " " key) " ") with ("" :: Split key " ").
    by rewrite Hk.
  - change (String c rest +:+ " " +:+ key)
      with (String c (rest +:+ " " +:+ key)).
    simpl in Hs |- *. destruct (Ascii.eqb c " ") eqn:Hc; [done|].
    pose proof (Split_nonempty rest " ") as Hne.
    destruct (Split rest " ") as [|p ps] eqn:Hrest; [done|].
    inversion Hs; subst p ps. by rewrite IH.
Qed.


(** X7: the credential that is looked up never holds a space, whatever the
    header is; so a [key_value] that holds one cannot be presented. *)
Theorem looked_up_credential_has_no_space (db : KeyStore) now authHeader key :
  Query key ∈ accesses (validateAPIKey db now authHeader) ->
  Split key " " = [key] /\ key = index (Split authHeader " ") 1.
Proof.
  intros Hin.
  destruct (decide (length (Split authHeader " ") = 2%nat /\
                    ToLower (index (Split authHeader " ") 0) = "bearer"))
    as [[Hlen Hlow]|Hno].
  - rewrite (validateAPIKey_shaped db now _ Hlen Hlow) in Hin.
    assert (key = index (Split authHeader " ") 1) as ->.
    { destruct (QueryRow db _); simpl in Hin.
      - apply elem_of_cons in Hin as [Heq|Hin]; [by inversion Heq|].
        apply elem_of_cons in Hin as [Heq|Hin]; [done|by inversion Hin].
      - apply elem_of_cons in Hin as [Heq|Hin]; [by inversion Heq|].
        by inversion Hin. }
    split; [|done].
    pose proof (Split_parts_have_no_separator authHeader " ") as Hparts.
    unfold index. destruct (Split authHeader " ") as [|p0 [|p1 ps]]; try done.
    apply Forall_cons in Hparts as [_ Hparts].
    by apply Forall_cons in Hparts as [H1 _].
  - rewrite (validateAPIKey_misshapen db now _ Hno) in Hin. by inversion Hin.
Qed.


Lemma looked_up_credential_has_no_space_witness :
  Query "wrong-key" ∈ accesses (validateAPIKey fixture.keys 100 "Bearer wrong-key") /\
  Split "wrong-key" " " = ["wrong-key"] /\
  "wrong-key" = index (Split "Bearer wrong-key" " ") 1.
Proof.
  assert (Query "wrong-key"
            ∈ accesses (validateAPIKey fixture.keys 100 "Bearer wrong-key"))
    as Hin by (simpl; left).
  split; [exact Hin|].
  exact (looked_up_credential_has_no_space fixture.keys 100
           "Bearer wrong-key" "wrong-key" Hin).
Defined.

(* ===================================================================== *)
(** * More on the handler: what one request touches                      *)
(* ===================================================================== *)

Ltac open_Verify :=
  unfold by_path.Verify, by_header.Verify,
    StatusOK, StatusBadRequest, StatusUnauthorized, StatusInternalServerError;
  cbn -[by_path.forwardToValis by_header.forwardToValis cached
        validateAPIKey validateRequiredFields].

Ltac open_forward :=
  unfold by_path.forwardToValis, by_header.forwardToValis.

(** The calls of the forwarding step that routes by path. *)
Lemma by_path_forward_calls {float64 : Type} (X : Externals float64) u req :
  (by_path.forwardToValis X u req).2 = [] /\
  (forall r, (by_path.forwardToValis X u req).1 <> FwdOk r) /\
  (by_path.forwardToValis X u req).1 <> FwdPanic \/
  exists requestBody path,
    json_Marshal_request X req = inr requestBody /\
    by_path.backendPath (Model req) = Some path /\
    (by_path.forwardToValis X u req).2 =
      [mkBackendCall (u +:+ path) None requestBody].
Proof.
  open_forward.
  destruct (json_Marshal_request X req) as [e|requestBody]; [by left|].
  destruct (by_path.backendPath (Model req)) as [path|]; [|by left].
  destruct (http_NewRequest X (u +:+ path)); [by left|].
  right. exists requestBody, path. repeat split.
  destruct (client_Do X _) as [e|e|b]; try done.
  by destruct (json_Unmarshal_map X b) as [e|[m|]].
Qed.

(** The calls of the forwarding step that routes by header. *)
Lemma by_header_forward_calls {float64 : Type} (X : Externals float64) u req :
  (by_header.forwardToValis X u req).1 <> FwdPanic /\
  ((by_header.forwardToValis X u req).2 = [] /\
   (forall b, (by_header.forwardToValis X u req).1 <> FwdOk b) \/
   exists requestBody server,
     json_Marshal_request X req = inr requestBody /\
     by_header.backendServer (Model req) = Some server /\
     (by_header.forwardToValis X u req).2 =
       [mkBackendCall (u +:+ "/verify") (Some server) requestBody]).
Proof.
  open_forward.
  destruct (json_Marshal_request X req) as [e|requestBody];
    [by split; [|left]|].
  destruct (http_NewRequest X (u +:+ "/verify")); [by split; [|left]|].
  destruct (by_header.backendServer (Model req)) as [server|];
    [|by split; [|left]].
  split; [by destruct (client_Do X _)|].
  right. exists requestBody, server. repeat split.
  by destruct (client_Do X _).
Qed.

Lemma backendPath_known model path :
  by_path.backendPath model = Some path ->
  model = "deepseek-ai/DeepSeek-R1" /\ path = "/r1/verify" \/
  model = "deepseek-ai/DeepSeek-V3" /\ path = "/v3/verify".
Proof.
  unfold by_path.backendPath.
  destruct (String.eqb model "deepseek-ai/DeepSeek-R1") eqn:H1.
  - apply String.eqb_eq in H1. intros [= <-]. by left.
  - destruct (String.eqb model "deepseek-ai/DeepSeek-V3") eqn:H2; [|done].
    apply String.eqb_eq in H2. intros [= <-]. by right.
Qed.

Lemma backendServer_known model server :
  by_header.backendServer model = Some server ->
  model = "deepseek-ai/DeepSeek-R1" /\ server = "r1" \/
  model = "deepseek-ai/DeepSeek-V3" /\ server = "v3".
Proof.
  unfold by_header.backendServer.
  destruct (String.eqb model "deepseek-ai/DeepSeek-R1") eqn:H1.
  - apply String.eqb_eq in H1. intros [= <-]. by left.
  - destruct (String.eqb model "deepseek-ai/DeepSeek-V3") eqn:H2; [|done].
    apply String.eqb_eq in H2. intros [= <-]. by right.
Qed.

(** X8: the forwarding step calls the backend at most once, with the
    encoded request as the body, and where the call goes is a function of
    the model alone: the path [/r1/verify] or [/v3/verify] under the
    configured URL in one variant, the header [r1] or [v3] on the path
    [/verify] in the other. *)
Theorem forward_is_routed_by_model {float64 : Type} (X : Externals float64)
    (u : string) (req : VerificationRequest float64) (call : BackendCall) :
  (call ∈ (by_path.forwardToValis X u req).2 ->
     (by_path.forwardToValis X u req).2 = [call] /\
     json_Marshal_request X req = inr (body call) /\
     x_backend_server call = None /\
     (Model req = "deepseek-ai/DeepSeek-R1" /\ url call = u +:+ "/r1/verify" \/
      Model req = "deepseek-ai/DeepSeek-V3" /\ url call = u +:+ "/v3/verify")) /\
  (call ∈ (by_header.forwardToValis X u req).2 ->
     (by_header.forwardToValis X u req).2 = [call] /\
     json_Marshal_request X req = inr (body call) /\
     url call = u +:+ "/verify" /\
     (Model req = "deepseek-ai/DeepSeek-R1" /\ x_backend_server call = Some "r1" \/
      Model req = "deepseek-ai/DeepSeek-V3" /\ x_backend_server call = Some "v3")).
Proof.
  split; intros Hin.
  - destruct (by_path_forward_calls X u req)
      as [(Hnil & _)|(requestBody & path & Hbody & Hpath & Hcalls)].
    + rewrite Hnil in Hin. by inversion Hin.
    + rewrite Hcalls in Hin |- *.
      apply list_elem_of_singleton in Hin. subst call. simpl.
      repeat split; [done|].
      destruct (backendPath_known _ _ Hpath) as [[-> ->]|[-> ->]]; auto.
  - destruct (by_header_forward_calls X u req)
      as (_ & [(Hnil & _)|(requestBody & server & Hbody & Hserver & Hcalls)]).
    + rewrite Hnil in Hin. by inversion Hin.
    + rewrite Hcalls in Hin |- *.
      apply list_elem_of_singleton in Hin. subst call. simpl.
      repeat split; [done|].
      destruct (backendServer_known _ _ Hserver) as [[-> ->]|[-> ->]]; auto.
Qed.





(** What the forwarding step that routes by path returns, by the reply. *)
Lemma by_path_forward_result {float64 : Type} (X : Externals float64) u req :
  match (by_path.forwardToValis X u req).1 with
  | FwdOk r =>
      exists call b m,
        (by_path.forwardToValis X u req).2 = [call] /\
        client_Do X call = Replies b /\
        json_Unmarshal_map X b = inr (Some m) /\
        r = by_path.typed_response X req m
  | FwdPanic =>
      exists call b,
        (by_path.forwardToValis X u req).2 = [call] /\
        client_Do X call = Replies b /\
        json_Unmarshal_map X b = inr None
  | FwdErr _ => True
  end.
Proof.
  open_forward.
  destruct (json_Marshal_request X req) as [e|requestBody]; [done|].
  destruct (by_path.backendPath (Model req)) as [path|]; [|done].
  destruct (http_NewRequest X (u +:+ path)); [done|].
  destruct (client_Do X _) as [e|e|b] eqn:Hdo; try done.
  destruct (json_Unmarshal_map X b) as [e|[m|]] eqn:Hdec; simpl; [done| |].
  - by eexists _, b, m.
  - by eexists _, b.
Qed.

(** What the forwarding step that routes by header returns, by the
    reply. *)
Lemma by_header_forward_result {float64 : Type} (X : Externals float64) u req :
  match (by_header.forwardToValis X u req).1 with
  | FwdOk b =>
      exists call,
        (by_header.forwardToValis X u req).2 = [call] /\
        client_Do X call = Replies b
  | FwdPanic => False
  | FwdErr _ => True
  end.
Proof.
  open_forward.
  destruct (json_Marshal_request X req) as [e|requestBody]; [done|].
  destruct (http_NewRequest X (u +:+ "/verify")); [done|].
  destruct (by_header.backendServer (Model req)) as [server|]; [|done].
  destruct (client_Do X _) as [e|e|b] eqn:Hdo; try done.
  simpl. by eexists.
Qed.

(** X11: the answers of the handler.  Status 200 carries a typed response
    in the variant that routes by path; in the other it carries either a
    typed response decoded from the cache, with no backend call, or the
    very bytes that the backend replied to the one call made.  Statuses
    400 and 401 come before any backend call.  Status 500 carries a message
    that begins with [Verification service error: ].  The variant that
    routes by path panics exactly in one way, on a reply that decodes to
    the nil map (the JSON text [null]), and then leaves the cache as it
    was; the variant that routes by header never panics. *)
Theorem Verify_answers {float64 : Type} (X : Externals float64)
    (cfg : Config) (clk : Clock) (rq : Inbound float64) :
  match outcome (by_path.Verify X cfg clk rq) with
  | Responded st p =>
      st = 200 /\ (exists r, p = Typed r) \/
      (st = 400 \/ st = 401) /\ (exists e, p = Envelope e) /\
        backend_calls (by_path.Verify X cfg clk rq) = [] \/
      st = 500 /\
        exists detail, p = Envelope ("Verification service error: " +:+ detail)
  | Panicked =>
      cache_after (by_path.Verify X cfg clk rq) = Cache cfg /\
      exists call b,
        backend_calls (by_path.Verify X cfg clk rq) = [call] /\
        client_Do X call = Replies b /\
        json_Unmarshal_map X b = inr None
  end /\
  match outcome (by_header.Verify X cfg clk rq) with
  | Responded st p =>
      st = 200 /\
        ((exists r, p = Typed r) /\
           backend_calls (by_header.Verify X cfg clk rq) = [] \/
         exists call b,
           p = Blob b /\
           backend_calls (by_header.Verify X cfg clk rq) = [call] /\
           client_Do X call = Replies b) \/
      (st = 400 \/ st = 401) /\ (exists e, p = Envelope e) /\
        backend_calls (by_header.Verify X cfg clk rq) = [] \/
      st = 500 /\
        exists detail, p = Envelope ("Verification service error: " +:+ detail)
  | Panicked => False
  end.
Proof.
  split.
  - open_Verify.
    destruct (Bind rq) as [request|];
      [|by right; left; split; [left|split; [eexists|]]].
    destruct (validateRequiredFields request) as [name [|]];
      [by right; left; split; [left|split; [eexists|]]|].
    destruct (negb _);
      [by right; left; split; [right|split; [eexists|]]|].
    destruct (cached X _ _ request) as [[response|] job];
      [by left; split; [|eexists]|].
    pose proof (by_path_forward_result X (HaproxyURL cfg) request) as Hres.
    destruct (by_path.forwardToValis X _ request) as [[r|e|] calls];
      simpl in Hres |- *.
    + by left; split; [|eexists].
    + by right; right; split; [|eexists].
    + split; [done|]. destruct Hres as (call & b & H). by exists call, b.
  - open_Verify.
    destruct (Bind rq) as [request|];
      [|by right; left; split; [left|split; [eexists|]]].
    destruct (validateRequiredFields request) as [name [|]];
      [by right; left; split; [left|split; [eexists|]]|].
    destruct (negb _);
      [by right; left; split; [right|split; [eexists|]]|].
    destruct (cached X _ _ request) as [[response|] job];
      [by left; split; [|left; split; [eexists|]]|].
    pose proof (by_header_forward_result X (HaproxyURL cfg) request) as Hres.
    destruct (by_header.forwardToValis X _ request) as [[r|e|] calls];
      simpl in Hres |- *.
    + left. split; [done|]. right. destruct Hres as (call & Hc & Hdo).
      by exists call, r.
    + by right; right; split; [|eexists].
    + done.
Qed.

(* ===================================================================== *)
(** * More on the handler: the same id again                             *)
(* ===================================================================== *)

(** The lookup of [Verify] on a cache that holds an entry for the id. *)
Lemma cached_of_entry {float64 : Type} (X : Externals float64)
    (c : gmap string CacheEntry) now (request : VerificationRequest float64)
    bytes expiry :
  RequestID request <> "" ->
  c !! RequestID request = Some (mkCacheEntry bytes expiry) ->
  cached X c now request =
    if expiry <? now then (None, Some (RequestID request))
    else match json_Unmarshal_response X bytes with
         | inl _ => (None, None)
         | inr response => (Some response, None)
         end.
Proof.
  intros Hid Hc. unfold cached. apply String.eqb_neq in Hid. rewrite Hid.
  rewrite (Get_present c now _ _ Hc). simpl.
  destruct (expiry <? now); [done|]. simpl.
  by destruct (json_Unmarshal_response X bytes).
Qed.





(** X14: an entry past its expiry is a miss.  When the cache holds, under
    the id of the request, an entry whose expiry is before the time at
    which the handler reads the cache, both variants forward the request as
    if there were no entry, and the deletion of the entry is handed to a
    goroutine. *)
Theorem expired_entry_is_forwarded {float64 : Type}
    (X : Externals float64) (cfg : Config) (clk : Clock)
    (rq : Inbound float64) (request : VerificationRequest float64)
    (entry : CacheEntry) :
  Bind rq = Some request ->
  validateRequiredFields request = ("", false) ->
  valid (validateAPIKey (SqlClient cfg) (at_auth clk) (Authorization rq)) = true ->
  RequestID request <> "" ->
  Cache cfg !! RequestID request = Some entry ->
  ExpiresAt entry < at_get clk ->
  (backend_calls (by_path.Verify X cfg clk rq) =
     (by_path.forwardToValis X (HaproxyURL cfg) request).2 /\
   started (by_path.Verify X cfg clk rq) = Some (RequestID request)) /\
  (backend_calls (by_header.Verify X cfg clk rq) =
     (by_header.forwardToValis X (HaproxyURL cfg) request).2 /\
   started (by_header.Verify X cfg clk rq) = Some (RequestID request)).
Proof.
  intros Hbound Hfields Hvalid Hid Hentry Hexp.
  assert (cached X (Cache cfg) (at_get clk) request =
            (None, Some (RequestID request))) as Hmiss.
  { destruct entry as [bytes expiry]. simpl in Hexp.
    rewrite (cached_of_entry X _ _ request bytes expiry Hid Hentry).
    apply Z.ltb_lt in Hexp. by rewrite Hexp. }
  split.
  - destruct (by_path_Verify_forwards X cfg clk rq request Hbound Hfields
                Hvalid _ Hmiss) as (_ & Hcalls & _).
    split; [exact Hcalls|].
    open_Verify. rewrite Hbound, Hfields, Hvalid, Hmiss. simpl.
    by destruct (by_path.forwardToValis X _ request) as [[r|e|] calls].
  - destruct (by_header_Verify_forwards X cfg clk rq request Hbound Hfields
                Hvalid _ Hmiss) as (_ & Hcalls & _).
    split; [exact Hcalls|].
    open_Verify. rewrite Hbound, Hfields, Hvalid, Hmiss. simpl.
    by destruct (by_header.forwardToValis X _ request) as [[r|e|] calls].
Qed.

(** X15: what the variant that routes by path reads in a reply.  The id of
    the answer is the id of the request, whatever the reply holds.  A
    [verified] that is a JSON boolean is passed on, with the [error] of the
    reply if that is a string.  A [verified] of another type counts as
    false, and no error is made up for it: that happens only when the
    member is absent. *)
Theorem typed_response_reads_the_reply {float64 : Type}
    (X : Externals float64) (request : VerificationRequest float64)
    (m : gmap string (JSON float64)) :
  let r := by_path.typed_response X request m in
  let error_of_reply :=
    match m !! "error" with Some (JString e) => e | _ => "" end in
  RespRequestID r = RequestID request /\
  (forall b, m !! "verified" = Some (JBool b) ->
     Verified r = b /\ Error r = error_of_reply) /\
  (forall j, m !! "verified" = Some j -> (forall b, j <> JBool b) ->
     Verified r = false /\ Error r = error_of_reply) /\
  (m !! "verified" = None ->
     Verified r = false /\ Error r = by_path.missing_verified).
Proof.
  intros r error_of_reply. subst r error_of_reply.
  split; [done|]. split; [|split].
  - intros b Hv. unfold by_path.typed_response. rewrite Hv. simpl.
    by rewrite Hv.
  - intros j Hv Hj. unfold by_path.typed_response. rewrite Hv. simpl.
    rewrite Hv. split; [|done]. destruct j; try done. by destruct (Hj b).
  - apply typed_response_without_verified.
Qed.

(* ===================================================================== *)
(** * The administration of the keys                                     *)
(* ===================================================================== *)

Lemma find_app_one {A : Type} (f : A -> bool) (l : list A) (x : A) :
  find f (l ++ [x]) =
    match find f l with
    | Some y => Some y
    | None => if f x then Some x else None
    end.
Proof.
  induction l as [|y l IH]; simpl; [done|]. by destruct (f y).
Qed.

Lemma find_none_of_existsb {A : Type} (f : A -> bool) (l : list A) :
  existsb f l = false -> find f l = None.
Proof.
  induction l as [|y l IH]; simpl; [done|].
  destruct (f y); [done|]. exact IH.
Qed.

Lemma find_none_of_count {A : Type} (f : A -> bool) (l : list A) :
  length (filter (fun x => f x = true) l) = O -> find f l = None.
Proof.
  induction l as [|y l IH]; simpl; [done|].
  rewrite filter_cons. destruct (f y) eqn:Hy.
  - rewrite decide_True by done. done.
  - rewrite decide_False by congruence. exact IH.
Qed.

Lemma find_some_of_count {A : Type} (f : A -> bool) (l : list A) n :
  length (filter (fun x => f x = true) l) = S n -> exists y, find f l = Some y.
Proof.
  induction l as [|y l IH]; simpl; [done|].
  rewrite filter_cons. destruct (f y) eqn:Hy; [by eauto|].
  rewrite decide_False by congruence. exact IH.
Qed.

Section Administration.

Variable E : sql.Engine.

(** X16: who passes [checkAdminAuth].  The caller passes exactly when the
    header has the bearer shape and its second part is the key value of a
    row, the first such row being an administrator's.  A row that is not
    an administrator's gives 403, no row 401, a database that does not
    answer 500, and a header of another shape 401. *)
Theorem checkAdminAuth_decides (db : sql.Database) (authHeader : string) :
  let parts := Split authHeader " " in
  let shaped :=
    length parts = 2%nat /\ ToLower (index parts 0) = "bearer" in
  let row := sql.select_where_key_value E sql.is_admin db (index parts 1) in
  (admin.checkAdminAuth E db authHeader = (true, 0, "") <->
     shaped /\ row = sql.Found true) /\
  (shaped -> row = sql.Found false ->
     admin.checkAdminAuth E db authHeader =
       (false, 403, "Administrator privileges required")) /\
  (shaped -> row = sql.ErrNoRows ->
     admin.checkAdminAuth E db authHeader = (false, 401, "Invalid API key")) /\
  (shaped -> row = sql.ScanFails ->
     admin.checkAdminAuth E db authHeader =
       (false, 500, "Internal server error")) /\
  (~ shaped ->
     exists msg, admin.checkAdminAuth E db authHeader = (false, 401, msg)).
Proof.
  intros parts shaped row. subst parts shaped row.
  unfold admin.checkAdminAuth.
  destruct (String.eqb authHeader "") eqn:Hempty.
  - apply String.eqb_eq in Hempty. subst authHeader. simpl.
    split; [split; [done|by intros [[? _] _]]|].
    repeat split; try by intros [? _].
    intros _. by eexists.
  - destruct (negb _ || negb _) eqn:Htest.
    + assert (~ (length (Split authHeader " ") = 2%nat /\
                 ToLower (index (Split authHeader " ") 0) = "bearer")) as Hno.
      { intros H. apply shape_test_passes in H. congruence. }
      split; [split; [done|by intros [? _]]|].
      repeat split; try done. intros _. by eexists.
    + apply shape_test_passes in Htest.
      destruct (sql.select_where_key_value E sql.is_admin db _) as [[|]| |];
        simpl; (split; [split; [try done|by intros [_ ?]]|]);
        repeat split; try done.
Qed.

(** X17: only an administrator changes or reads the table.  [AddKey]
    leaves the table as it was unless the caller passed [checkAdminAuth]
    and the answer is the new key, in which case exactly one row has been
    appended, for the hotkey asked and never an administrator's.
    [RemoveKey] leaves the rows as they were unless the caller passed and
    the answer is the 200 message, in which case exactly the rows of the
    hotkey asked are gone.  [GetKey] answers a key to a caller who passed
    only. *)
Theorem admin_changes_need_an_administrator (db : sql.Database)
    (generated : option string) (dbNow now : Z) (rq : admin.Inbound) :
  let passed :=
    admin.checkAdminAuth E db (admin.Authorization rq) = (true, 0, "") in
  ((admin.AddKey E db generated dbNow now rq).2 = db \/
   passed /\
   exists hk kv,
     admin.Bind rq = Some hk /\ hk <> "" /\ generated = Some kv /\
     (admin.AddKey E db generated dbNow now rq).1 =
       admin.Created (mkApiKey hk kv now None false) /\
     sql.api_keys (admin.AddKey E db generated dbNow now rq).2 =
       sql.api_keys db ++ [sql.mkRow hk kv dbNow None false]) /\
  (sql.api_keys (admin.RemoveKey E db rq).2 = sql.api_keys db \/
   passed /\
   exists hk,
     admin.Bind rq = Some hk /\ hk <> "" /\
     (admin.RemoveKey E db rq).1 =
       admin.Message 200 "API key removed successfully" /\
     sql.api_keys (admin.RemoveKey E db rq).2 =
       filter (fun r => sql.same E (sql.hotkey r) hk = false) (sql.api_keys db)) /\
  (forall hk kv, admin.GetKey E db rq = admin.Key hk kv ->
     passed /\ admin.Bind rq = Some hk /\
     sql.select_where_hotkey E sql.key_value db hk = sql.Found kv).
Proof.
  intros passed. subst passed.
  unfold admin.AddKey, admin.RemoveKey, admin.GetKey.
  destruct (admin.checkAdminAuth E db (admin.Authorization rq))
    as [[ok code] msg] eqn:Hauth.
  destruct ok; [|by split; [left|split; [left|]]].
  assert ((true, code, msg) = (true, 0, ""))%type as Hpassed.
  { revert Hauth. unfold admin.checkAdminAuth.
    destruct (String.eqb _ ""); [done|].
    destruct (negb _ || negb _); [done|].
    destruct (sql.select_where_key_value E sql.is_admin db _) as [[|]| |];
      simpl; congruence. }
  rewrite Hpassed.
  destruct (admin.Bind rq) as [hk|]; [|by split; [left|split; [left|]]].
  destruct (String.eqb hk "") eqn:Hhk; [by split; [left|split; [left|]]|].
  apply String.eqb_neq in Hhk.
  split; [|split].
  - destruct generated as [kv|]; [|by left].
    destruct (sql.count_where_hotkey E db hk) as [[|n]|]; [|by left|by left].
    destruct (sql.insert E db _) as [db'|] eqn:Hins; [|by left].
    right. split; [done|]. exists hk, kv. repeat split; try done.
    simpl. unfold sql.insert in Hins.
    destruct (_ && _ && _ && _); [|done]. by inversion Hins.
  - unfold sql.delete_where_hotkey.
    destruct (sql.answers db); [|by left]. simpl.
    destruct (length _) as [|n] eqn:Hn.
    + left. simpl. clear -Hn.
      induction (sql.api_keys db) as [|r l IH]; [done|].
      rewrite filter_cons in Hn. rewrite filter_cons.
      destruct (sql.same E (sql.hotkey r) hk) eqn:Hr.
      * rewrite decide_True in Hn by done. done.
      * rewrite decide_False in Hn by congruence.
        rewrite decide_True by done. f_equal. by apply IH.
    + right. split; [done|]. by exists hk.
  - intros hk' kv.
    destruct (sql.select_where_hotkey E sql.key_value db hk) as [v| |] eqn:Hs;
      [|done|done].
    by intros [= <- <-].
Qed.

End Administration.

Section Keys.

Variable E : sql.Engine.
Hypothesis same_refl : forall s, sql.same E s s = true.

Lemma insert_appends db row db' :
  sql.insert E db row = Some db' ->
  sql.answers db = true /\
  db' = sql.mkDatabase (sql.api_keys db ++ [row]) true /\
  find (fun r => sql.same E (sql.key_value r) (sql.key_value row))
    (sql.api_keys db) = None /\
  find (fun r => sql.same E (sql.hotkey r) (sql.hotkey row))
    (sql.api_keys db) = None.
Proof.
  unfold sql.insert. destruct (sql.answers db); [|done]. simpl.
  destruct (sql.admits E _ && sql.admits E _); [|done]. simpl.
  destruct (existsb _ _) eqn:Hex; [done|]. simpl. intros [= <-].
  repeat split.
  - apply find_none_of_existsb. revert Hex.
    induction (sql.api_keys db) as [|r l IH]; simpl; [done|].
    intros H. apply orb_false_iff in H as [H1 H2].
    apply orb_false_iff in H1 as [_ H1]. rewrite H1. simpl. by apply IH.
  - apply find_none_of_existsb. revert Hex.
    induction (sql.api_keys db) as [|r l IH]; simpl; [done|].
    intros H. apply orb_false_iff in H as [H1 H2].
    apply orb_false_iff in H1 as [H1 _]. rewrite H1. simpl. by apply IH.
Qed.

(** A caller who passed still passes after a row has been appended. *)
Lemma checkAdminAuth_after_insert db row db' authHeader :
  sql.insert E db row = Some db' ->
  admin.checkAdminAuth E db authHeader = (true, 0, "") ->
  admin.checkAdminAuth E db' authHeader = (true, 0, "").
Proof.
  intros Hins. apply insert_appends in Hins as (Hup & -> & _ & _).
  unfold admin.checkAdminAuth, sql.select_where_key_value. simpl.
  rewrite Hup. destruct (String.eqb authHeader ""); [done|].
  destruct (negb _ || negb _); [done|].
  rewrite find_app_one.
  by destruct (find _ (sql.api_keys db)) as [r|].
Qed.

Lemma AddKey_created db generated dbNow now rq key db' :
  admin.AddKey E db generated dbNow now rq = (admin.Created key, db') ->
  admin.checkAdminAuth E db (admin.Authorization rq) = (true, 0, "") /\
  admin.Bind rq = Some (Hotkey key) /\ Hotkey key <> "" /\
  generated = Some (KeyValue key) /\ IsAdmin key = false /\
  sql.insert E db (sql.mkRow (Hotkey key) (KeyValue key) dbNow None false)
    = Some db'.
Proof.
  unfold admin.AddKey.
  destruct (admin.checkAdminAuth E db (admin.Authorization rq))
    as [[ok code] msg] eqn:Hauth.
  destruct ok; [|done].
  assert ((true, code, msg) = (true, 0, ""))%type as Hpassed.
  { revert Hauth. unfold admin.checkAdminAuth.
    destruct (String.eqb _ ""); [done|].
    destruct (negb _ || negb _); [done|].
    destruct (sql.select_where_key_value E sql.is_admin db _) as [[|]| |];
      simpl; congruence. }
  destruct (admin.Bind rq) as [hk|]; [|done].
  destruct (String.eqb hk "") eqn:Hhk; [done|]. apply String.eqb_neq in Hhk.
  destruct generated as [kv|]; [|done].
  destruct (sql.count_where_hotkey E db hk) as [[|n]|]; [|done|done].
  destruct (sql.insert E db _) as [db1|] eqn:Hins; [|done].
  intros [= <- <-]. done.
Qed.

(** [checkAdminAuth] on the header made of [Bearer], one space and a
    credential that holds no space. *)
Lemma checkAdminAuth_bearer db kv :
  Split kv " " = [kv] ->
  admin.checkAdminAuth E db ("Bearer " +:+ kv) =
    match sql.select_where_key_value E sql.is_admin db kv with
    | sql.ErrNoRows => (false, 401, "Invalid API key")
    | sql.ScanFails => (false, 500, "Internal server error")
    | sql.Found isAdmin =>
        if negb isAdmin
        then (false, 403, "Administrator privileges required")
        else (true, 0, "")
    end.
Proof.
  intros Hspace.
  pose proof (Split_scheme_and_credential "Bearer" kv eq_refl Hspace) as Hsplit.
  change ("Bearer" +:+ " " +:+ kv) with ("Bearer " +:+ kv) in Hsplit.
  unfold admin.checkAdminAuth.
  change (String.eqb ("Bearer " +:+ kv) "") with false. cbv iota.
  rewrite Hsplit. done.
Qed.

(** X18: a key that has been added can be fetched, and cannot be added
    again.  After [AddKey] has answered with a new key, [GetKey] for its
    hotkey, by the same caller, answers that hotkey and that key value; and
    another [AddKey] for the same hotkey is refused with 400 and changes
    nothing. *)
Theorem AddKey_then_GetKey (db db' : sql.Database) (generated : option string)
    (dbNow now : Z) (rq : admin.Inbound) (key : ApiKey)
    (again : string) (dbNow' now' : Z) :
  admin.AddKey E db generated dbNow now rq = (admin.Created key, db') ->
  let rq' := admin.mkInbound (admin.Authorization rq) (Some (Hotkey key)) in
  admin.GetKey E db' rq' = admin.Key (Hotkey key) (KeyValue key) /\
  admin.AddKey E db' (Some again) dbNow' now' rq' =
    (admin.Failure 400
       "Hotkey already exists. Use a different hotkey or remove the existing one first.",
     db').
Proof.
  intros Hadd rq'.
  apply AddKey_created in Hadd as (Hauth & Hbound & Hhk & _ & _ & Hins).
  pose proof (checkAdminAuth_after_insert _ _ _ _ Hins Hauth) as Hauth'.
  apply insert_appends in Hins as (Hup & -> & _ & Hfresh). simpl in Hfresh.
  apply String.eqb_neq in Hhk. split.
  - unfold admin.GetKey. simpl. rewrite Hauth', Hhk.
    unfold sql.select_where_hotkey. simpl.
    rewrite find_app_one, Hfresh. simpl. by rewrite same_refl.
  - unfold admin.AddKey. simpl. rewrite Hauth', Hhk.
    unfold sql.count_where_hotkey. simpl.
    rewrite filter_app, length_app. simpl. rewrite filter_cons. simpl.
    rewrite decide_True by apply same_refl. simpl.
    by rewrite Nat.add_succ_r.
Qed.

(** X19: a key made by [AddKey] is never an administrator's.  Presented as
    a bearer credential to an admin handler it is refused with 403, as long
    as it holds no space (with a space it is refused with 401). *)
Theorem added_key_is_not_an_administrator (db db' : sql.Database)
    (generated : option string) (dbNow now : Z) (rq : admin.Inbound)
    (key : ApiKey) :
  admin.AddKey E db generated dbNow now rq = (admin.Created key, db') ->
  Split (KeyValue key) " " = [KeyValue key] ->
  IsAdmin key = false /\
  admin.checkAdminAuth E db' ("Bearer " +:+ KeyValue key) =
    (false, 403, "Administrator privileges required").
Proof.
  intros Hadd Hspace.
  apply AddKey_created in Hadd as (_ & _ & _ & _ & Hnot & Hins).
  split; [exact Hnot|].
  apply insert_appends in Hins as (Hup & -> & Hfresh & _). simpl in Hfresh.
  rewrite checkAdminAuth_bearer by done.
  unfold sql.select_where_key_value. cbn [sql.answers sql.api_keys].
  rewrite find_app_one, Hfresh. cbn [sql.key_value]. by rewrite same_refl.
Qed.

End Keys.

Section Removal.

Variable E : sql.Engine.

Lemma RemoveKey_removed db rq st m db' :
  admin.RemoveKey E db rq = (admin.Message st m, db') ->
  admin.checkAdminAuth E db (admin.Authorization rq) = (true, 0, "") /\
  exists hk,
    admin.Bind rq = Some hk /\ hk <> "" /\ sql.answers db = true /\
    db' = sql.mkDatabase
            (filter (fun r => sql.same E (sql.hotkey r) hk = false)
               (sql.api_keys db)) true.
Proof.
  unfold admin.RemoveKey.
  destruct (admin.checkAdminAuth E db (admin.Authorization rq))
    as [[ok code] msg] eqn:Hauth.
  destruct ok; [|done].
  assert ((true, code, msg) = (true, 0, ""))%type as Hpassed.
  { revert Hauth. unfold admin.checkAdminAuth.
    destruct (String.eqb _ ""); [done|].
    destruct (negb _ || negb _); [done|].
    destruct (sql.select_where_key_value E sql.is_admin db _) as [[|]| |];
      simpl; congruence. }
  destruct (admin.Bind rq) as [hk|]; [|done].
  destruct (String.eqb hk "") eqn:Hhk; [done|]. apply String.eqb_neq in Hhk.
  unfold sql.delete_where_hotkey.
  destruct (sql.answers db); [|done].
  destruct (length _); [done|]. intros [= <- <- <-].
  split; [done|]. by exists hk.
Qed.

Lemma find_in_the_rest (hk : string) (l : list sql.Row) :
  find (fun r => sql.same E (sql.hotkey r) hk)
    (filter (fun r => sql.same E (sql.hotkey r) hk = false) l) = None.
Proof.
  induction l as [|r l IH]; [done|]. rewrite filter_cons.
  destruct (sql.same E (sql.hotkey r) hk) eqn:Hr.
  - by rewrite decide_False by congruence.
  - rewrite decide_True by done. simpl. by rewrite Hr.
Qed.

Lemma count_in_the_rest (hk : string) (l : list sql.Row) :
  length (filter (fun r => sql.same E (sql.hotkey r) hk = true)
            (filter (fun r => sql.same E (sql.hotkey r) hk = false) l)) = O.
Proof.
  induction l as [|r l IH]; [done|]. rewrite filter_cons.
  destruct (sql.same E (sql.hotkey r) hk) eqn:Hr.
  - by rewrite decide_False by congruence.
  - rewrite decide_True by done. rewrite filter_cons.
    by rewrite decide_False by congruence.
Qed.

Lemma the_rest_of_the_rest (hk : string) (l : list sql.Row) :
  filter (fun r => sql.same E (sql.hotkey r) hk = false)
    (filter (fun r => sql.same E (sql.hotkey r) hk = false) l) =
  filter (fun r => sql.same E (sql.hotkey r) hk = false) l.
Proof.
  induction l as [|r l IH]; [done|]. rewrite filter_cons.
  destruct (sql.same E (sql.hotkey r) hk) eqn:Hr.
  - by rewrite decide_False by congruence.
  - rewrite decide_True by done. rewrite filter_cons.
    rewrite decide_True by done. by rewrite IH.
Qed.

(** X20: a key that has been removed is gone, and only it.  After
    [RemoveKey] has answered 200 for a hotkey, no row has that hotkey and
    every row of another hotkey is still there; for a caller who still
    passes, [GetKey] for that hotkey answers 404, and so does a second
    [RemoveKey], which changes nothing. *)
Theorem RemoveKey_then_GetKey (db db' : sql.Database) (rq : admin.Inbound)
    (st : Z) (m hk : string) :
  admin.RemoveKey E db rq = (admin.Message st m, db') ->
  admin.Bind rq = Some hk ->
  sql.select_where_hotkey E sql.key_value db' hk = sql.ErrNoRows /\
  (forall r, r ∈ sql.api_keys db -> sql.same E (sql.hotkey r) hk = false ->
     r ∈ sql.api_keys db') /\
  (forall authHeader,
     admin.checkAdminAuth E db' authHeader = (true, 0, "") ->
     admin.GetKey E db' (admin.mkInbound authHeader (Some hk)) =
       admin.Failure 404 "API key not found" /\
     admin.RemoveKey E db' (admin.mkInbound authHeader (Some hk)) =
       (admin.Failure 404 "API key not found", db')).
Proof.
  intros Hrem Hbound.
  apply RemoveKey_removed in Hrem as (_ & hk' & Hbound' & Hhk & Hup & ->).
  rewrite Hbound in Hbound'. inversion Hbound'; subst hk'. clear Hbound'.
  apply String.eqb_neq in Hhk.
  assert (sql.select_where_hotkey E sql.key_value
            (sql.mkDatabase
               (filter (fun r => sql.same E (sql.hotkey r) hk = false)
                  (sql.api_keys db)) true) hk = sql.ErrNoRows) as Hgone.
  { unfold sql.select_where_hotkey. simpl. by rewrite find_in_the_rest. }
  split; [exact Hgone|]. split.
  - intros r Hr Hother. simpl. by apply list_elem_of_filter.
  - intros authHeader Hauth. split.
    + unfold admin.GetKey. simpl. by rewrite Hauth, Hhk, Hgone.
    + unfold admin.RemoveKey. simpl. rewrite Hauth, Hhk.
      unfold sql.delete_where_hotkey. simpl.
      by rewrite count_in_the_rest, the_rest_of_the_rest.
Qed.

End Removal.

(** ** The table and the key store of [validateAPIKey] *)

Section Binary.

(** A database that compares its columns byte by byte. *)
Variable admits : string -> bool.

Lemma lookup_keys_of_rows (rows : list sql.Row) (key : string) :
  (list_to_map (map (fun r => (sql.key_value r, sql.hotkey r)) rows)
     : gmap string string) !! key =
  sql.hotkey <$> find (fun r => String.eqb (sql.key_value r) key) rows.
Proof.
  induction rows as [|r rows IH]; simpl; [done|].
  destruct (String.eqb (sql.key_value r) key) eqn:Hr.
  - apply String.eqb_eq in Hr. subst key. by rewrite lookup_insert_eq.
  - apply String.eqb_neq in Hr. by rewrite lookup_insert_ne.
Qed.

(** The lookup of [validateAPIKey] in the key store of a table is the
    statement [SELECT hotkey FROM api_keys WHERE key_value = ?] on the
    table. *)
Lemma QueryRow_key_store (db : sql.Database) (key : string) :
  QueryRow (admin.key_store db) key =
    match sql.select_where_key_value (sql.mkEngine String.eqb admits)
            sql.hotkey db key with
    | sql.Found hotkey => Some hotkey
    | _ => None
    end.
Proof.
  unfold QueryRow, admin.key_store, sql.select_where_key_value. simpl.
  destruct (sql.answers db); [|done].
  rewrite lookup_keys_of_rows. by destruct (find _ _).
Qed.

Lemma validateAPIKey_bearer (ks : KeyStore) now kv :
  Split kv " " = [kv] ->
  validateAPIKey ks now ("Bearer " +:+ kv) =
    match QueryRow ks kv with
    | None => mkAuthResult false "invalid API key" ks [Query kv]
    | Some hotkey =>
        mkAuthResult true "" (Exec ks now hotkey) [Query kv; Update hotkey now]
    end.
Proof.
  intros Hspace.
  pose proof (Split_scheme_and_credential "Bearer" kv eq_refl Hspace) as Hsplit.
  change ("Bearer" +:+ " " +:+ kv) with ("Bearer " +:+ kv) in Hsplit.
  rewrite validateAPIKey_shaped; rewrite Hsplit; done.
Qed.

(** X21: a key made by [AddKey] opens the verification endpoint.  In a
    database that compares byte by byte, after [AddKey] has answered with a
    new key that holds no space, [validateAPIKey] accepts the header made
    of [Bearer], one space and the key value, and records the use under the
    hotkey of the new key. *)
Theorem added_key_authenticates (db db' : sql.Database)
    (generated : option string) (dbNow now t : Z) (rq : admin.Inbound)
    (key : ApiKey) :
  admin.AddKey (sql.mkEngine String.eqb admits) db generated dbNow now rq
    = (admin.Created key, db') ->
  Split (KeyValue key) " " = [KeyValue key] ->
  valid (validateAPIKey (admin.key_store db') t ("Bearer " +:+ KeyValue key))
    = true /\
  accesses (validateAPIKey (admin.key_store db') t ("Bearer " +:+ KeyValue key))
    = [Query (KeyValue key); Update (Hotkey key) t].
Proof.
  intros Hadd Hspace.
  apply AddKey_created in Hadd as (_ & _ & _ & _ & _ & Hins).
  apply insert_appends in Hins as (Hup & -> & Hfresh & _). simpl in Hfresh.
  rewrite validateAPIKey_bearer by done.
  rewrite QueryRow_key_store. unfold sql.select_where_key_value. simpl.
  rewrite find_app_one, Hfresh. simpl. by rewrite String.eqb_refl.
Qed.

Lemma checkAdminAuth_without_row (E : sql.Engine) db authHeader :
  sql.answers db = true ->
  find (fun r => sql.same E (sql.key_value r) (index (Split authHeader " ") 1))
    (sql.api_keys db) = None ->
  exists msg, admin.checkAdminAuth E db authHeader = (false, 401, msg).
Proof.
  intros Hup Hnone. unfold admin.checkAdminAuth.
  destruct (String.eqb authHeader ""); [by eexists|].
  destruct (negb _ || negb _); [by eexists|].
  unfold sql.select_where_key_value. rewrite Hup, Hnone. by eexists.
Qed.

Lemma validateAPIKey_without_row (ks : KeyStore) now authHeader :
  hotkey_of ks !! index (Split authHeader " ") 1 = None ->
  valid (validateAPIKey ks now authHeader) = false.
Proof.
  intros Hnone. unfold validateAPIKey.
  destruct (String.eqb authHeader ""); [done|].
  destruct (negb _ || negb _); [done|].
  unfold QueryRow. rewrite Hnone. by destruct (reachable ks).
Qed.

(** X22: a key that has been removed opens nothing.  In a database that
    compares byte by byte and whose key values are unique, after
    [RemoveKey] has answered 200 for a hotkey, a header whose credential is
    the key value of a removed row is refused by [validateAPIKey] and, with
    401, by [checkAdminAuth]: this holds for the administrator's own key as
    well. *)
Theorem removed_key_is_refused (db db' : sql.Database) (rq : admin.Inbound)
    (st : Z) (m hk authHeader : string) (t : Z) (row : sql.Row) :
  let E := sql.mkEngine String.eqb admits in
  (forall r1 r2, r1 ∈ sql.api_keys db -> r2 ∈ sql.api_keys db ->
     sql.key_value r1 = sql.key_value r2 -> sql.hotkey r1 = sql.hotkey r2) ->
  admin.RemoveKey E db rq = (admin.Message st m, db') ->
  admin.Bind rq = Some hk ->
  row ∈ sql.api_keys db -> sql.hotkey row = hk ->
  index (Split authHeader " ") 1 = sql.key_value row ->
  valid (validateAPIKey (admin.key_store db') t authHeader) = false /\
  exists msg, admin.checkAdminAuth E db' authHeader = (false, 401, msg).
Proof.
  intros E Hunique Hrem Hbound Hrow Hhk Hcred.
  apply RemoveKey_removed in Hrem as (_ & hk' & Hbound' & _ & Hup & ->).
  rewrite Hbound in Hbound'. inversion Hbound'; subst hk'. clear Hbound'.
  assert (find (fun r => String.eqb (sql.key_value r) (sql.key_value row))
            (filter (fun r => String.eqb (sql.hotkey r) hk = false)
               (sql.api_keys db)) = None) as Hgone.
  { destruct (find _ _) as [r|] eqn:Hfind; [|done].
    apply find_some in Hfind as [Hin Hkey].
    apply list_elem_of_In, list_elem_of_filter in Hin as [Hother Hin].
    apply String.eqb_eq in Hkey.
    rewrite (Hunique r row Hin Hrow Hkey), Hhk, String.eqb_refl in Hother.
    done. }
  split.
  - apply validateAPIKey_without_row. rewrite Hcred. simpl.
    rewrite lookup_keys_of_rows. by rewrite Hgone.
  - apply checkAdminAuth_without_row; [done|]. by rewrite Hcred.
Qed.

End Binary.

(** ** The administrator's key at start-up *)

Section AdminKey.

Variable E : sql.Engine.
Hypothesis same_refl : forall s, sql.same E s s = true.

Lemma find_key_after_update (rows : list sql.Row) (hk kv : string) :
  existsb (fun r => negb (sql.same E (sql.hotkey r) hk)
                    && sql.same E (sql.key_value r) kv) rows = false ->
  find (fun r => sql.same E (sql.key_value r) kv)
    (map (fun r => if sql.same E (sql.hotkey r) hk
                   then sql.mkRow (sql.hotkey r) kv (sql.created_at r)
                          (sql.last_used_at r) (sql.is_admin r)
                   else r) rows) =
  (fun r => sql.mkRow (sql.hotkey r) kv (sql.created_at r)
              (sql.last_used_at r) (sql.is_admin r))
    <$> find (fun r => sql.same E (sql.hotkey r) hk) rows.
Proof.
  induction rows as [|r rows IH]; simpl; [done|].
  intros Hex. apply orb_false_iff in Hex as [Hr Hrest].
  destruct (sql.same E (sql.hotkey r) hk) eqn:Hhk; simpl in Hr |- *.
  - by rewrite same_refl.
  - rewrite Hr. by apply IH.
Qed.

Lemma find_hotkey_after_update (rows : list sql.Row) (hk kv : string) :
  find (fun r => sql.same E (sql.hotkey r) hk)
    (map (fun r => if sql.same E (sql.hotkey r) hk
                   then sql.mkRow (sql.hotkey r) kv (sql.created_at r)
                          (sql.last_used_at r) (sql.is_admin r)
                   else r) rows) =
  (fun r => sql.mkRow (sql.hotkey r) kv (sql.created_at r)
              (sql.last_used_at r) (sql.is_admin r))
    <$> find (fun r => sql.same E (sql.hotkey r) hk) rows.
Proof.
  induction rows as [|r rows IH]; simpl; [done|].
  destruct (sql.same E (sql.hotkey r) hk) eqn:Hhk; simpl.
  - by rewrite Hhk.
  - by rewrite Hhk.
Qed.

(** X23: what [ensureAdminKey] sets up.  When it returns no error, the
    configured hotkey holds the configured key value.  If the hotkey had no
    row, the key is an administrator's: the header made of [Bearer], one
    space and the key value (which must hold no space) passes
    [checkAdminAuth].  If the hotkey had a row, only its key value has been
    replaced: the header passes when that row was an administrator's, and
    is refused with 403 when it was not. *)
Theorem ensureAdminKey_sets_the_key (db db' : sql.Database)
    (adminHotkey adminKeyValue : string) (now : Z) :
  ensureAdminKey E db adminHotkey adminKeyValue now = (None, db') ->
  Split adminKeyValue " " = [adminKeyValue] ->
  sql.select_where_hotkey E sql.key_value db' adminHotkey
    = sql.Found adminKeyValue /\
  (sql.select_where_hotkey E sql.is_admin db adminHotkey = sql.ErrNoRows ->
     admin.checkAdminAuth E db' ("Bearer " +:+ adminKeyValue) = (true, 0, "")) /\
  (forall wasAdmin,
     sql.select_where_hotkey E sql.is_admin db adminHotkey
       = sql.Found wasAdmin ->
     admin.checkAdminAuth E db' ("Bearer " +:+ adminKeyValue) =
       if wasAdmin then (true, 0, "")
       else (false, 403, "Administrator privileges required")).
Proof.
  intros Hensure Hspace. rewrite (checkAdminAuth_bearer E) by done.
  unfold ensureAdminKey, sql.count_where_hotkey in Hensure.
  unfold sql.select_where_hotkey, sql.select_where_key_value.
  destruct (sql.answers db) eqn:Hup; [|done].
  destruct (length _) as [|n] eqn:Hcount.
  - apply find_none_of_count in Hcount.
    destruct (sql.insert E db _) as [db1|] eqn:Hins; [|done].
    inversion Hensure; subst db1. clear Hensure.
    apply (insert_appends E) in Hins as (_ & -> & Hfresh & _).
    simpl in Hfresh |- *. rewrite !find_app_one, Hfresh, Hcount. simpl.
    rewrite !same_refl. by repeat split.
  - apply find_some_of_count in Hcount as [r0 Hr0].
    destruct (sql.update_key_value E db _ _) as [db1|] eqn:Hupd; [|done].
    inversion Hensure; subst db1. clear Hensure.
    unfold sql.update_key_value in Hupd. rewrite Hup in Hupd. simpl in Hupd.
    assert (existsb (fun r => sql.same E (sql.hotkey r) adminHotkey)
              (sql.api_keys db) = true) as Hsome.
    { apply existsb_exists. apply find_some in Hr0 as [Hin Hsame]. eauto. }
    rewrite Hsome in Hupd. simpl in Hupd.
    destruct (negb (sql.admits E adminKeyValue)); [done|]. simpl in Hupd.
    destruct (existsb _ (sql.api_keys db)) eqn:Hconflict; [done|].
    simpl in Hupd. inversion Hupd; subst db'. clear Hupd. simpl.
    rewrite find_key_after_update by done.
    rewrite find_hotkey_after_update. rewrite Hr0. simpl.
    split; [done|]. split; [done|].
    intros wasAdmin [= <-]. by destruct (sql.is_admin r0).
Qed.

End AdminKey.

(* ===================================================================== *)
(** * Instances of the further properties                                *)
(* ===================================================================== *)

Lemma forward_is_routed_by_model_witness :
  let X := fixture.externals fixture.silent_backend in
  let req := fixture.request "deepseek-ai/DeepSeek-V3" "req-1" in
  let by_path_call :=
    mkBackendCall "http://haproxy/v3/verify" None
      (fixture.json_text "{'model':'deepseek-ai/DeepSeek-V3'}") in
  let by_header_call :=
    mkBackendCall "http://haproxy/verify" (Some "v3")
      (fixture.json_text "{'model':'deepseek-ai/DeepSeek-V3'}") in
  (by_path_call ∈ (by_path.forwardToValis X "http://haproxy" req).2 /\
   (by_path.forwardToValis X "http://haproxy" req).2 = [by_path_call]) /\
  (by_header_call ∈ (by_header.forwardToValis X "http://haproxy" req).2 /\
   (by_header.forwardToValis X "http://haproxy" req).2 = [by_header_call]).
Proof.
  intros X req by_path_call by_header_call.
  assert (by_path_call ∈ (by_path.forwardToValis X "http://haproxy" req).2)
    as Hp by (vm_compute; left).
  assert (by_header_call ∈ (by_header.forwardToValis X "http://haproxy" req).2)
    as Hh by (vm_compute; left).
  split.
  - split; [exact Hp|].
    exact (proj1 (proj1 (forward_is_routed_by_model X "http://haproxy" req
                           by_path_call) Hp)).
  - split; [exact Hh|].
    exact (proj1 (proj2 (forward_is_routed_by_model X "http://haproxy" req
                           by_header_call) Hh)).
Defined.



Lemma expired_entry_is_forwarded_witness :
  let X := fixture.externals fixture.agreeing_backend in
  let stale : gmap string CacheEntry :=
    {["req-1" := mkCacheEntry fixture.verified_false 99]} in
  let cfg := mkConfig stale fixture.keys "http://haproxy" in
  let request := fixture.request "deepseek-ai/DeepSeek-R1" "req-1" in
  let rq := mkInbound "Bearer secret-1" (Some request) in
  stale !! "req-1" = Some (mkCacheEntry fixture.verified_false 99) /\
  99 < at_get fixture.clock /\
  (backend_calls (by_path.Verify X cfg fixture.clock rq) =
     (by_path.forwardToValis X "http://haproxy" request).2 /\
   started (by_path.Verify X cfg fixture.clock rq) = Some "req-1") /\
  (backend_calls (by_header.Verify X cfg fixture.clock rq) =
     (by_header.forwardToValis X "http://haproxy" request).2 /\
   started (by_header.Verify X cfg fixture.clock rq) = Some "req-1").
Proof.
  intros X stale cfg request rq.
  assert (stale !! "req-1" = Some (mkCacheEntry fixture.verified_false 99))
    as Hentry by (vm_compute; reflexivity).
  assert (99 < at_get fixture.clock) as Hexp by (vm_compute; reflexivity).
  assert (RequestID request <> "") as Hid by discriminate.
  split; [exact Hentry|]. split; [exact Hexp|].
  exact (expired_entry_is_forwarded X cfg fixture.clock rq request
           (mkCacheEntry fixture.verified_false 99)
           eq_refl eq_refl eq_refl Hid Hentry Hexp).
Defined.

Lemma typed_response_reads_the_reply_witness :
  let X := fixture.externals fixture.agreeing_backend in
  let request := fixture.request "deepseek-ai/DeepSeek-R1" "req-1" in
  let m : gmap string (JSON Z) :=
    {["verified" := JString "yes"; "error" := JString "busy"]} in
  m !! "verified" = Some (JString "yes") /\
  (forall b, JString "yes" <> (JBool b : JSON Z)) /\
  Verified (by_path.typed_response X request m) = false /\
  Error (by_path.typed_response X request m) = "busy".
Proof.
  intros X request m.
  assert (m !! "verified" = Some (JString "yes")) as Hv
    by (vm_compute; reflexivity).
  assert (forall b, JString "yes" <> (JBool b : JSON Z)) as Hj
    by (intros b; discriminate).
  split; [exact Hv|]. split; [exact Hj|].
  exact (proj1 (proj2 (proj2 (typed_response_reads_the_reply X request m)))
           (JString "yes") Hv Hj).
Defined.

Lemma checkAdminAuth_decides_witness :
  (length (Split "Bearer secret-1" " ") = 2%nat /\
   ToLower (index (Split "Bearer secret-1" " ") 0) = "bearer") /\
  sql.select_where_key_value fixture.engine sql.is_admin fixture.table
    (index (Split "Bearer secret-1" " ") 1) = sql.Found false /\
  admin.checkAdminAuth fixture.engine fixture.table "Bearer secret-1" =
    (false, 403, "Administrator privileges required").
Proof.
  assert (length (Split "Bearer secret-1" " ") = 2%nat /\
          ToLower (index (Split "Bearer secret-1" " ") 0) = "bearer") as Hshape
    by (split; reflexivity).
  assert (sql.select_where_key_value fixture.engine sql.is_admin fixture.table
            (index (Split "Bearer secret-1" " ") 1) = sql.Found false) as Hrow
    by reflexivity.
  split; [exact Hshape|]. split; [exact Hrow|].
  exact (proj1 (proj2 (checkAdminAuth_decides fixture.engine fixture.table
                         "Bearer secret-1")) Hshape Hrow).
Defined.

Lemma admin_changes_need_an_administrator_witness :
  let rq := admin.mkInbound "Bearer admin-key" (Some "hotkey-1") in
  admin.GetKey fixture.engine fixture.table rq = admin.Key "hotkey-1" "secret-1" /\
  admin.checkAdminAuth fixture.engine fixture.table "Bearer admin-key"
    = (true, 0, "") /\
  sql.select_where_hotkey fixture.engine sql.key_value fixture.table "hotkey-1"
    = sql.Found "secret-1".
Proof.
  intros rq.
  assert (admin.GetKey fixture.engine fixture.table rq
          = admin.Key "hotkey-1" "secret-1") as Hget by reflexivity.
  split; [exact Hget|].
  pose proof (proj2 (proj2 (admin_changes_need_an_administrator fixture.engine
                              fixture.table None 0 0 rq))
                "hotkey-1" "secret-1" Hget) as (Hpassed & _ & Hrow).
  split; [exact Hpassed|exact Hrow].
Defined.

Lemma AddKey_then_GetKey_witness :
  let rq := admin.mkInbound "Bearer admin-key" (Some "hotkey-2") in
  let key := mkApiKey "hotkey-2" "new-key" 21 None false in
  let db' :=
    sql.mkDatabase
      (sql.api_keys fixture.table ++ [sql.mkRow "hotkey-2" "new-key" 20 None false])
      true in
  admin.AddKey fixture.engine fixture.table (Some "new-key") 20 21 rq
    = (admin.Created key, db') /\
  admin.GetKey fixture.engine db' rq = admin.Key "hotkey-2" "new-key" /\
  admin.AddKey fixture.engine db' (Some "other-key") 30 31 rq =
    (admin.Failure 400
       "Hotkey already exists. Use a different hotkey or remove the existing one first.",
     db').
Proof.
  intros rq key db'.
  assert (admin.AddKey fixture.engine fixture.table (Some "new-key") 20 21 rq
          = (admin.Created key, db')) as Hadd by reflexivity.
  split; [exact Hadd|].
  exact (AddKey_then_GetKey fixture.engine String.eqb_refl fixture.table db'
           (Some "new-key") 20 21 rq key "other-key" 30 31 Hadd).
Defined.

Lemma added_key_is_not_an_administrator_witness :
  let rq := admin.mkInbound "Bearer admin-key" (Some "hotkey-2") in
  let key := mkApiKey "hotkey-2" "new-key" 21 None false in
  let db' :=
    sql.mkDatabase
      (sql.api_keys fixture.table ++ [sql.mkRow "hotkey-2" "new-key" 20 None false])
      true in
  admin.AddKey fixture.engine fixture.table (Some "new-key") 20 21 rq
    = (admin.Created key, db') /\
  Split "new-key" " " = ["new-key"] /\
  admin.checkAdminAuth fixture.engine db' "Bearer new-key" =
    (false, 403, "Administrator privileges required") /\
  valid (validateAPIKey (admin.key_store db') 40 "Bearer new-key") = true.
Proof.
  intros rq key db'.
  assert (admin.AddKey fixture.engine fixture.table (Some "new-key") 20 21 rq
          = (admin.Created key, db')) as Hadd by reflexivity.
  assert (Split "new-key" " " = ["new-key"]) as Hspace by reflexivity.
  split; [exact Hadd|]. split; [exact Hspace|]. split.
  - exact (proj2 (added_key_is_not_an_administrator fixture.engine
                    String.eqb_refl fixture.table db' (Some "new-key") 20 21
                    rq key Hadd Hspace)).
  - reflexivity.
Defined.

Lemma added_key_authenticates_witness :
  let rq := admin.mkInbound "Bearer admin-key" (Some "hotkey-2") in
  let key := mkApiKey "hotkey-2" "new-key" 21 None false in
  let db' :=
    sql.mkDatabase
      (sql.api_keys fixture.table ++ [sql.mkRow "hotkey-2" "new-key" 20 None false])
      true in
  admin.AddKey fixture.engine fixture.table (Some "new-key") 20 21 rq
    = (admin.Created key, db') /\
  Split "new-key" " " = ["new-key"] /\
  valid (validateAPIKey (admin.key_store db') 40 "Bearer new-key") = true /\
  accesses (validateAPIKey (admin.key_store db') 40 "Bearer new-key") =
    [Query "new-key"; Update "hotkey-2" 40].
Proof.
  intros rq key db'.
  assert (admin.AddKey fixture.engine fixture.table (Some "new-key") 20 21 rq
          = (admin.Created key, db')) as Hadd by reflexivity.
  assert (Split "new-key" " " = ["new-key"]) as Hspace by reflexivity.
  split; [exact Hadd|]. split; [exact Hspace|].
  exact (added_key_authenticates (sql.admits fixture.engine) fixture.table db'
           (Some "new-key") 20 21 40 rq key Hadd Hspace).
Defined.

Lemma RemoveKey_then_GetKey_witness :
  let rq := admin.mkInbound "Bearer admin-key" (Some "hotkey-1") in
  let db' := sql.mkDatabase [sql.mkRow "admin" "admin-key" 0 None true] true in
  admin.RemoveKey fixture.engine fixture.table rq
    = (admin.Message 200 "API key removed successfully", db') /\
  admin.checkAdminAuth fixture.engine db' "Bearer admin-key" = (true, 0, "") /\
  admin.GetKey fixture.engine db' rq = admin.Failure 404 "API key not found" /\
  admin.RemoveKey fixture.engine db' rq
    = (admin.Failure 404 "API key not found", db').
Proof.
  intros rq db'.
  assert (admin.RemoveKey fixture.engine fixture.table rq
          = (admin.Message 200 "API key removed successfully", db')) as Hrem
    by reflexivity.
  assert (admin.checkAdminAuth fixture.engine db' "Bearer admin-key"
          = (true, 0, "")) as Hauth by reflexivity.
  split; [exact Hrem|]. split; [exact Hauth|].
  exact (proj2 (proj2 (RemoveKey_then_GetKey fixture.engine fixture.table db'
                         rq 200 "API key removed successfully" "hotkey-1"
                         Hrem eq_refl))
           "Bearer admin-key" Hauth).
Defined.

(** The administrator removes the administrator's own row. *)
Lemma removed_key_is_refused_witness :
  let rq := admin.mkInbound "Bearer admin-key" (Some "admin") in
  let db' := sql.mkDatabase [sql.mkRow "hotkey-1" "secret-1" 10 None false] true in
  admin.RemoveKey fixture.engine fixture.table rq
    = (admin.Message 200 "API key removed successfully", db') /\
  valid (validateAPIKey (admin.key_store db') 40 "Bearer admin-key") = false /\
  exists msg,
    admin.checkAdminAuth fixture.engine db' "Bearer admin-key" = (false, 401, msg).
Proof.
  intros rq db'.
  assert (admin.RemoveKey fixture.engine fixture.table rq
          = (admin.Message 200 "API key removed successfully", db')) as Hrem
    by reflexivity.
  assert (forall r1 r2, r1 ∈ sql.api_keys fixture.table ->
            r2 ∈ sql.api_keys fixture.table ->
            sql.key_value r1 = sql.key_value r2 ->
            sql.hotkey r1 = sql.hotkey r2) as Hunique.
  { intros r1 r2 H1 H2.
    apply elem_of_cons in H1 as [->|H1];
      [|apply list_elem_of_singleton in H1 as ->];
      (apply elem_of_cons in H2 as [->|H2];
       [|apply list_elem_of_singleton in H2 as ->]);
      simpl; intros H; try reflexivity; discriminate H. }
  assert (sql.mkRow "admin" "admin-key" 0 None true ∈ sql.api_keys fixture.table)
    as Hrow by (simpl; left).
  split; [exact Hrem|].
  exact (removed_key_is_refused (sql.admits fixture.engine) fixture.table db' rq
           200 "API key removed successfully" "admin" "Bearer admin-key" 40
           (sql.mkRow "admin" "admin-key" 0 None true)
           Hunique Hrem eq_refl Hrow eq_refl eq_refl).
Defined.

(** The hotkey configured for the administrator already has a row, made by
    [AddKey]: the key value is replaced and the key is still not an
    administrator's. *)
Lemma ensureAdminKey_sets_the_key_witness :
  let db' :=
    sql.mkDatabase
      [ sql.mkRow "admin" "admin-key" 0 None true;
        sql.mkRow "hotkey-1" "root-key" 10 None false ] true in
  ensureAdminKey fixture.engine fixture.table "hotkey-1" "root-key" 50
    = (None, db') /\
  Split "root-key" " " = ["root-key"] /\
  sql.select_where_hotkey fixture.engine sql.is_admin fixture.table "hotkey-1"
    = sql.Found false /\
  admin.checkAdminAuth fixture.engine db' "Bearer root-key" =
    (false, 403, "Administrator privileges required").
Proof.
  intros db'.
  assert (ensureAdminKey fixture.engine fixture.table "hotkey-1" "root-key" 50
          = (None, db')) as Hensure by reflexivity.
  assert (Split "root-key" " " = ["root-key"]) as Hspace by reflexivity.
  assert (sql.select_where_hotkey fixture.engine sql.is_admin fixture.table
            "hotkey-1" = sql.Found false) as Hwas by reflexivity.
  split; [exact Hensure|]. split; [exact Hspace|]. split; [exact Hwas|].
  exact (proj2 (proj2 (ensureAdminKey_sets_the_key fixture.engine
                         String.eqb_refl fixture.table db' "hotkey-1"
                         "root-key" 50 Hensure Hspace))
           false Hwas).
Defined.
